(** * AI Chat Protocol client SDKs: NDJSON stream decoding and completion calls

    The development has three parts:
    - [NDJSON]: the newline-delimited JSON stream decoder that both SDKs hand a
      streaming response body to ([getAsyncIterable] in the TypeScript SDK,
      [JsonLinesAsyncEnumerator.EnumerateFromStream] in the C# SDK);
    - [JS]: [AIChatProtocolClient.getCompletion] and [getStreamedCompletion] of
      sdk/js/src/client.ts;
    - [DotNet]: [ChatProtocolClient.GetChatCompletionAsync],
      [GetChatCompletionStreamingAsync] and [CreatePipelineMessage] of
      sdk/dotnet/src/ChatProtocolClient.cs. *)

From Stdlib.Strings Require Import Byte Ascii.
From stdpp Require Import gmap strings list pretty.
From Equations Require Import Equations.

Set Default Proof Using "Type".

(** ** Bytes *)

Abbreviation LF := Byte.x0a (only parsing).
Abbreviation CR := Byte.x0d (only parsing).

Definition bytes_of (s : string) : list byte := String.list_byte_of_string s.

#[global] Instance byte_eq_dec : EqDecision byte := Byte.byte_eq_dec.

(** ** The NDJSON stream decoder *)

Module NDJSON.

(** How a lazy sequence of items ends: the producer reaches the end of the
    chunk stream, or aborts with a [DecodeError] naming the offending text. *)
Inductive outcome : Type :=
  | Completed
  | DecodeError (line : list byte).

(** What a consumer that pulls the sequence to its end observes. *)
Record run (T : Type) : Type := Run { yielded : list T; ending : outcome }.
Arguments Run {T} _ _.
Arguments yielded {T} _.
Arguments ending {T} _.

(** The decoder between two chunks: it holds its line buffer, or it has
    aborted. *)
Inductive status : Type :=
  | Buffered (buffer : list byte)
  | Aborted (line : list byte).

(** Modelled from the spec: the scan of the decoder's buffer for the first
    line terminator, giving the bytes before it and the bytes after it. *)
Fixpoint find_terminator (buf : list byte) : option (list byte * list byte) :=
  match buf with
  | [] => None
  | b :: rest =>
      if Byte.eqb b LF then Some ([], rest)
      else match find_terminator rest with
           | Some (line, rest') => Some (b :: line, rest')
           | None => None
           end
  end.

(** Modelled from the spec: strip a trailing carriage return if present, as
    the decoder does to a candidate line. *)
Fixpoint strip_cr (line : list byte) : list byte :=
  match line with
  | [] => []
  | b :: rest =>
      match rest with
      | [] => if Byte.eqb b CR then [] else [b]
      | _ :: _ => b :: strip_cr rest
      end
  end.

(** A stretch of the stream made of complete lines: it is empty or its last
    byte is a terminator. *)
Definition complete_lines (pre : list byte) : bool :=
  match last pre with
  | None => true
  | Some b => Byte.eqb b LF
  end.

(** Join the lines of a stream with the terminator. *)
Fixpoint join_lines (lines : list (list byte)) : list byte :=
  match lines with
  | [] => []
  | line :: rest =>
      match rest with
      | [] => line
      | _ :: _ => line ++ LF :: join_lines rest
      end
  end.

(** Keep the equation that a scrutinee evaluates to its pattern. *)
Definition inspect {A : Type} (a : A) : { b : A | a = b } := exist _ a eq_refl.

Definition emit {T S : Type} (v : T) (r : list T * S) : list T * S :=
  (v :: r.1, r.2).

Definition after {T} (ys : list T) (r : run T) : run T :=
  Run (ys ++ yielded r) (ending r).

(** Continue with [k] on the buffer a step left behind, unless it aborted. *)
Definition resume {T} (r : list T * status)
    (k : list byte -> list T * status) : list T * status :=
  match r with
  | (ys, Buffered buf) => let r' := k buf in (ys ++ r'.1, r'.2)
  | (ys, Aborted line) => (ys, Aborted line)
  end.

Section Decoder.
Context {T : Type}.

(** The caller-supplied decode function; [None] is its failure. *)
Variable decode : list byte -> option T.

(** Modelled from the spec: the per-chunk loop of the decoder, absent from
    the sources (util/ndjson.js, JsonLinesAsyncEnumerator). Repeatedly scan
    the buffer for a terminator; for each one found extract the bytes before
    it, remove them and the terminator from the buffer, strip a trailing
    carriage return, skip the text if it is empty, otherwise decode it and
    yield the result; a failing decode aborts. *)
Equations? drain (buf : list byte) : list T * status by wf (length buf) lt :=
  drain buf with inspect (find_terminator buf) := {
    | exist _ None _ => ([], Buffered buf)
    | exist _ (Some (line, rest)) Hfind with strip_cr line := {
        | [] => drain rest
        | b :: text with decode (b :: text) := {
            | None => ([], Aborted (b :: text))
            | Some v => emit v (drain rest) } } }.
Proof.
  all: clear -Hfind; revert line rest Hfind;
    induction buf as [|c buf IH]; intros line rest Hfind; simpl in *;
    try discriminate;
    destruct (Byte.eqb c LF);
    [ injection Hfind as <- <-; lia
    | destruct (find_terminator buf) as [[l r]|]; try discriminate;
      injection Hfind as <- <-; specialize (IH _ _ eq_refl); lia ].
Qed.

(** Modelled from the spec: the decoder over the chunks it receives. On each
    chunk, append it to the buffer and drain the complete lines. *)
Fixpoint feed (buf : list byte) (chunks : list (list byte)) : list T * status :=
  match chunks with
  | [] => ([], Buffered buf)
  | c :: chunks' => resume (drain (buf ++ c)) (fun buf' => feed buf' chunks')
  end.

(** Modelled from the spec: the end of the chunk stream. A non-empty
    remainder is the final line and is decoded; an empty one produces
    nothing. *)
Definition finish (buf : list byte) : run T :=
  match buf with
  | [] => Run [] Completed
  | _ :: _ =>
      match decode buf with
      | Some v => Run [v] Completed
      | None => Run [] (DecodeError buf)
      end
  end.

(** Modelled from the spec: what the consumer has observed once the chunk
    stream has ended, from what was yielded while the chunks were consumed
    and the state this left the decoder in. *)
Definition close (r : list T * status) : run T :=
  match r with
  | (ys, Buffered buf) => after ys (finish buf)
  | (ys, Aborted line) => Run ys (DecodeError line)
  end.

(** Modelled from the spec: the NDJSON stream decoder, absent from the
    sources, from the chunks of a response body to the sequence of decoded
    items. *)
Definition getAsyncIterable (chunks : list (list byte)) : run T :=
  close (feed [] chunks).

End Decoder.

(** A decode function to run the decoder on: a text that opens with a brace
    decodes to itself, any other text is malformed. *)
Definition brace_decode (text : list byte) : option (list byte) :=
  match text with
  | b :: _ => if Byte.eqb b "{"%byte then Some text else None
  | [] => None
  end.

(** The text [{"a":1}]. *)
Definition json_a1 : list byte :=
  ["{"; Byte.x22; "a"; Byte.x22; ":"; "1"; "}"]%byte.

End NDJSON.

(** ** The TypeScript client (sdk/js/src/client.ts) *)

Module JS.

(** [\d]: an ASCII digit. *)
Definition is_digit (c : Ascii.ascii) : bool :=
  let n := Ascii.nat_of_ascii c in (48 <=? n)%nat && (n <=? 57)%nat.

(** [/2\d\d/.test(s)]: the pattern is not anchored, it matches anywhere in
    the string. *)
Fixpoint regex_2dd_test (s : string) : bool :=
  match s with
  | EmptyString => false
  | String c rest =>
      (Ascii.eqb c "2"%char &&
       match rest with
       | String d1 (String d2 _) => is_digit d1 && is_digit d2
       | _ => false
       end)
      || regex_2dd_test rest
  end.

(** A three-character status between 200 and 299. *)
Definition three_digit_2xx (s : string) : bool :=
  match s with
  | String a (String b (String c EmptyString)) =>
      Ascii.eqb a "2"%char && is_digit b && is_digit c
  | _ => false
  end.

(** [new Error(message)] *)
Inductive error : Type := Error (message : string).

(** A promise, settled. *)
Inductive promise (A : Type) : Type :=
  | Fulfilled (value : A)
  | Rejected (reason : error).
Arguments Fulfilled {A} _.
Arguments Rejected {A} _.

(** A response of the HTTP runtime: [B] is the parsed body for a plain call
    and the chunks of the body for a call made through [asStream]. *)
Record HttpResponse (B : Type) : Type := {
  status : string;
  response_headers : gmap string string;
  response_body : B;
}.
Arguments status {B} _.
Arguments response_headers {B} _.
Arguments response_body {B} _.

Section Client.
(** The values of JavaScript that the client only passes along. *)
Variables AIChatMessage JsonValue : Type.
(** The items of a streamed completion. *)
Variable AIChatCompletionDelta : Type.

Record AIChatCompletionOptions : Type := {
  context : option JsonValue;
  sessionState : option JsonValue;
}.

(** [options = {}] *)
Definition no_options : AIChatCompletionOptions :=
  {| context := None; sessionState := None |}.

Record RequestBody : Type := {
  body_messages : list AIChatMessage;
  body_stream : bool;
  body_context : option JsonValue;
  body_sessionState : option JsonValue;
}.

Record RequestParameters : Type := {
  headers : gmap string string;
  body : RequestBody;
}.

(** [this.client.path("").post(request, options)] *)
Variable post :
  RequestParameters -> AIChatCompletionOptions ->
  promise (HttpResponse JsonValue).
(** [asStream(this.client.path("").post(request, options))] *)
Variable post_asStream :
  RequestParameters -> AIChatCompletionOptions ->
  promise (HttpResponse (list (list byte))).
(** The decode function of [getAsyncIterable]. *)
Variable decode_delta : list byte -> option AIChatCompletionDelta.

(** The [request] of [getCompletion]. *)
Definition getCompletion_request (messages : list AIChatMessage)
    (options : AIChatCompletionOptions) : RequestParameters :=
  {| headers := {[ "Content-Type" := "application/json" ]};
     body := {| body_messages := messages;
                body_stream := false;
                body_context := context options;
                body_sessionState := sessionState options |} |}.

Definition getCompletion (messages : list AIChatMessage)
    (options : AIChatCompletionOptions) : promise JsonValue :=
  let request := getCompletion_request messages options in
  match post request options with
  | Rejected e => Rejected e
  | Fulfilled response =>
      if negb (regex_2dd_test (status response)) then
        Rejected (Error (String.append "Request failed with status code "
                                       (status response)))
      else Fulfilled (response_body response)
  end.

(** The [request] of [getStreamedCompletion]. *)
Definition getStreamedCompletion_request (messages : list AIChatMessage)
    (options : AIChatCompletionOptions) : RequestParameters :=
  {| headers := {[ "Content-Type" := "application/json" ]};
     body := {| body_messages := messages;
                body_stream := true;
                body_context := context options;
                body_sessionState := sessionState options |} |}.

Definition getStreamedCompletion (messages : list AIChatMessage)
    (options : AIChatCompletionOptions) :
    promise (NDJSON.run AIChatCompletionDelta) :=
  let request := getStreamedCompletion_request messages options in
  match post_asStream request options with
  | Rejected e => Rejected e
  | Fulfilled response =>
      if negb (regex_2dd_test (status response)) then
        Rejected (Error (String.append "Request failed with status code "
                                       (status response)))
      else Fulfilled (NDJSON.getAsyncIterable decode_delta
                        (response_body response))
  end.

End Client.

Arguments context {JsonValue} _.
Arguments sessionState {JsonValue} _.
Arguments no_options {JsonValue}.
Arguments body_messages {AIChatMessage JsonValue} _.
Arguments body_stream {AIChatMessage JsonValue} _.
Arguments body_context {AIChatMessage JsonValue} _.
Arguments body_sessionState {AIChatMessage JsonValue} _.
Arguments headers {AIChatMessage JsonValue} _.
Arguments body {AIChatMessage JsonValue} _.
Arguments getCompletion_request {AIChatMessage JsonValue} _ _.
Arguments getCompletion {AIChatMessage JsonValue} _ _ _.
Arguments getStreamedCompletion_request {AIChatMessage JsonValue} _ _.
Arguments getStreamedCompletion {AIChatMessage JsonValue AIChatCompletionDelta} _ _ _ _.

(** *** The constructor and its credential tests (client.ts, lines 22-63) *)

(** The values that reach the constructor as [unknown]. An object, a function
    or a proxy is given by what [typeof] says of it and by what reading its
    members gives during the call: [read k name] is the outcome of reading
    member [name] as the [k]-th member read of the call, counting from 0, and
    [None] is a read that throws (a getter or a proxy trap that throws, a
    revoked proxy). Two reads of one member may differ. *)
#[warnings="-register-all"]
Inductive js_value : Type :=
  | js_undefined
  | js_null
  | js_boolean (b : bool)
  | js_number (n : Z)
  | js_nan
  | js_string (s : string)
  | js_object (callable : bool) (read : nat -> string -> option js_value).

(** The value as a condition: what [v && ...] and [if (v)] test. *)
Definition truthy (v : js_value) : bool :=
  match v with
  | js_undefined | js_null | js_nan => false
  | js_boolean b => b
  | js_number n => negb (n =? 0)%Z
  | js_string s => negb (String.eqb s "")
  | js_object _ _ => true
  end.

Definition typeof (v : js_value) : string :=
  match v with
  | js_undefined => "undefined"
  | js_null => "object"
  | js_boolean _ => "boolean"
  | js_number _ | js_nan => "number"
  | js_string _ => "string"
  | js_object callable _ => if callable then "function" else "object"
  end.

(** [v === undefined] *)
Definition is_undefined (v : js_value) : bool :=
  match v with js_undefined => true | _ => false end.

Fixpoint member (name : string) (props : list (string * js_value)) : js_value :=
  match props with
  | [] => js_undefined
  | (k, v) :: rest => if String.eqb k name then v else member name rest
  end.

(** An object or function all of whose members are data properties: every
    read succeeds and finds the same value, [undefined] for a missing
    member. *)
Definition plain (callable : bool) (props : list (string * js_value)) : js_value :=
  js_object callable (fun _ name => Some (member name props)).

Section Language.
(** What the language does outside this file: a member read on a primitive
    value, which goes through the prototype of its wrapper, and the
    comparison [v > 0] on a string or an object, which converts the value
    first; [None] is an exception. *)
Variable primitive_read : js_value -> nat -> string -> option js_value.
Variable converted_greater_than_zero : js_value -> option bool.

(** [v.name], as the [k]-th member read of the call: a read on [undefined]
    or [null] is a TypeError. *)
Definition get (v : js_value) (k : nat) (name : string) : option js_value :=
  match v with
  | js_undefined | js_null => None
  | js_object _ read => read k name
  | js_boolean _ | js_number _ | js_nan | js_string _ => primitive_read v k name
  end.

(** [v > 0] *)
Definition greater_than_zero (v : js_value) : option bool :=
  match v with
  | js_number n => Some (0 <? n)%Z
  | js_boolean b => Some b
  | js_undefined | js_null | js_nan => Some false
  | js_string _ | js_object _ _ => converted_greater_than_zero v
  end.

(** [isTokenCredential], as the condition it is used for; [None] is an
    exception. The member [getToken] is read twice.
    [castCredential && typeof castCredential.getToken === "function" &&
     (castCredential.signRequest === undefined ||
      castCredential.getToken.length > 0)] *)
Definition isTokenCredential (credential : js_value) : option bool :=
  if negb (truthy credential) then Some false
  else
    getToken ← get credential 0 "getToken";
    if negb (String.eqb (typeof getToken) "function") then Some false
    else
      signRequest ← get credential 1 "signRequest";
      if is_undefined signRequest then Some true
      else
        getToken' ← get credential 2 "getToken";
        len ← get getToken' 3 "length";
        greater_than_zero len.

(** The client of the HTTP runtime, and the runtime's [isKeyCredential] and
    [getClient], either of which may throw; an argument left out of a call is
    [undefined]. *)
Variable Client : Type.
Variable isKeyCredential : js_value -> option bool.
Variable getClient : string -> js_value -> js_value -> option Client.

(** [isTokenCredential(credential) || isKeyCredential(credential)] *)
Definition isCredential (credential : js_value) : option bool :=
  isTokenCredential credential ≫= fun token : bool =>
  if token then Some true else isKeyCredential credential.

(** [new AIChatProtocolClient(endpoint, arg1, arg2)], by the runtime client it
    stores. *)
Definition new_AIChatProtocolClient (endpoint : string)
    (arg1 arg2 : js_value) : option Client :=
  isCredential arg1 ≫= fun credential : bool =>
  if credential then getClient endpoint arg1 arg2
  else getClient endpoint arg1 js_undefined.

End Language.

Arguments new_AIChatProtocolClient _ _ {Client} _ _ _ _ _.

End JS.

(** ** The C# client (sdk/dotnet/src/ChatProtocolClient.cs) *)

Module DotNet.

(** [System.ClientModel.Primitives.ClientErrorBehaviors] *)
Inductive ClientErrorBehaviors : Type := Default | NoThrow.

Definition is_NoThrow (e : ClientErrorBehaviors) : bool :=
  match e with NoThrow => true | Default => false end.

Record RequestOptions : Type := { ErrorOptions : ClientErrorBehaviors }.

(** [new RequestOptions()] *)
Definition new_RequestOptions : RequestOptions := {| ErrorOptions := Default |}.

(** Modelled from the spec: the message class ChatMessage, declared outside
    these sources, with the role and the content of the wire format. *)
Record ChatMessage : Type := { Role : string; Content : string }.

Record PipelineRequest : Type := {
  Method : string;
  Uri : string;
  Headers : gmap string string;
  RequestContent : option string;
}.

(** A message of the pipeline. What [message.Apply(requestOptions)] copies
    from the options into the message is the pipeline's business: the message
    keeps the options that were applied. *)
Record PipelineMessage : Type := {
  Request : PipelineRequest;
  BufferResponse : bool;
  Applied : option RequestOptions;
}.

(** A response of the pipeline; [IsError] is set by the pipeline's message
    classifier, [ResponseHeaders !! name] is [Headers.TryGetValue]. *)
Record PipelineResponse : Type := {
  Status : Z;
  ReasonPhrase : string;
  IsError : bool;
  ResponseHeaders : gmap string string;
  ResponseContent : list byte;
  ContentStream : list (list byte);
}.

Inductive exn : Type :=
  | ClientResultException (message : option string) (response : PipelineResponse)
  | NullReferenceException
  | JsonException
  | PipelineException (reason : string).

Inductive result (A : Type) : Type :=
  | Ok (value : A)
  | Throw (e : exn).
Arguments Ok {A} _.
Arguments Throw {A} _.

Record ClientResult (A : Type) : Type := {
  Value : A;
  RawResponse : PipelineResponse;
}.
Arguments Value {A} _.
Arguments RawResponse {A} _.

(** A streaming result, with what its enumeration produces. *)
Record StreamingClientResult (A : Type) : Type := {
  StreamingRawResponse : PipelineResponse;
  Enumeration : NDJSON.run A;
}.
Arguments StreamingRawResponse {A} _.
Arguments Enumeration {A} _.

Record ILogger : Type := { IsEnabled_Information : bool }.

Record ChatProtocolClient : Type := {
  endpoint : string;
  logger : option ILogger;
  (** [this.clientPipeline.CreateMessage()] *)
  CreateMessage : PipelineMessage;
  (** [this.clientPipeline.SendAsync(message)] followed by
      [message.ExtractResponse()] *)
  SendAsync : PipelineMessage -> result PipelineResponse;
}.

Definition VERSION : string := "1.0.0-beta.1".

(** [string.Contains]: an ordinal substring test. *)
Fixpoint Contains (s sub : string) : bool :=
  String.prefix sub s ||
  match s with
  | EmptyString => false
  | String _ rest => Contains rest sub
  end.

(** [EmptyAsyncEnumerable<T>()]: [yield break]. *)
Definition EmptyAsyncEnumerable {A : Type} : NDJSON.run A :=
  NDJSON.Run [] NDJSON.Completed.

Section Client.
(** JSON values of the context and session state, and parsed documents. *)
Variables JsonValue JsonElement : Type.
Variable ChatCompletionDelta : Type.

(** Modelled from the spec: the request class ChatCompletionOptions, declared
    outside these sources, with the fields of the wire format; the client only
    touches [Stream]. *)
Record ChatCompletionOptions : Type := {
  Messages : list ChatMessage;
  Stream : bool;
  Context : option JsonValue;
  SessionState : option JsonValue;
}.

Definition with_Stream (b : bool) (o : ChatCompletionOptions) :
    ChatCompletionOptions :=
  {| Messages := Messages o; Stream := b;
     Context := Context o; SessionState := SessionState o |}.

(** The completion class, declared outside these sources, by the arguments
    of the constructor call
    [new ChatCompletion(message, string.Empty, null, null)]. *)
Record ChatCompletion : Type := new_ChatCompletion {
  Message : ChatMessage;
  completion_arg2 : string;
  completion_arg3 : option JsonValue;
  completion_arg4 : option JsonValue;
}.

(** Methods declared outside this file's sources. *)
Variable SerializeToJson : ChatCompletionOptions -> string.
Variable JsonDocument_Parse : list byte -> option JsonElement.
Variable DeserializeChatCompletion : JsonElement -> option ChatCompletion.
Variable DeserializeStreamingChatUpdate : JsonElement -> option ChatCompletionDelta.

(** What a call does to the outside, in order. *)
Inductive event : Type :=
  | LogHttpRequest (request : PipelineRequest) (jsonBody : string)
  | Sent (message : PipelineMessage)
  | LogHttpResponse (response : PipelineResponse)
  | LogHttpResponseBody (jsonString : list byte)
  | Parsed (jsonString : list byte).

(** The objects that callers share with the client by reference, and the
    events so far. *)
Record world : Type := {
  objects : gmap positive ChatCompletionOptions;
  trace : list event;
}.

(** Calls run in the world and return or throw. *)
Definition M (A : Type) : Type := world -> world * result A.

Definition ret {A} (a : A) : M A := fun w => (w, Ok a).
Definition throw {A} (e : exn) : M A := fun w => (w, Throw e).
Definition bind {A B} (c : M A) (k : A -> M B) : M B :=
  fun w => match c w with
           | (w', Ok a) => k a w'
           | (w', Throw e) => (w', Throw e)
           end.

Notation "x <- c ;; k" := (bind c (fun x => k))
  (at level 100, c at next level, right associativity).
Notation "c ;; k" := (bind c (fun _ => k))
  (at level 100, right associativity).

Definition tell (e : event) : M unit :=
  fun w => ({| objects := objects w; trace := trace w ++ [e] |}, Ok tt).

Definition when (b : bool) (c : M unit) : M unit := if b then c else ret tt.

(** Read the object behind a reference; a dangling one is [null]. *)
Definition deref (r : positive) : M ChatCompletionOptions :=
  fun w => match objects w !! r with
           | Some o => (w, Ok o)
           | None => (w, Throw NullReferenceException)
           end.

(** [chatCompletionOptions.Stream = b] *)
Definition set_Stream (r : positive) (b : bool) : M unit :=
  fun w => match objects w !! r with
           | Some o => ({| objects := <[r := with_Stream b o]> (objects w);
                           trace := trace w |}, Ok tt)
           | None => (w, Throw NullReferenceException)
           end.

Definition lift {A} (r : result A) : M A := fun w => (w, r).

Definition has_logger (client : ChatProtocolClient) : bool :=
  match logger client with Some _ => true | None => false end.

Definition logs_information (client : ChatProtocolClient) : bool :=
  match logger client with
  | Some l => IsEnabled_Information l
  | None => false
  end.

(** The request that [CreatePipelineMessage] fills in for options [o]. *)
Definition build_request (client : ChatProtocolClient)
    (o : ChatCompletionOptions) : PipelineRequest :=
  let request := Request (CreateMessage client) in
  let h0 := Headers request in
  let h1 := match h0 !! "User-Agent" with
            | Some _ => h0
            | None => <[ "User-Agent" :=
                         String.append "sdk-csharp-microsoft-ai-chatprotocol/"
                                       VERSION ]> h0
            end in
  let h2 := <[ "Content-Type" := "application/json" ]> h1 in
  let h3 := if negb (Stream o)
            then <[ "Accept" := "application/json" ]> h2
            else h2 in
  {| Method := "POST"; Uri := endpoint client; Headers := h3;
     RequestContent := Some (SerializeToJson o) |}.

Definition CreatePipelineMessage (client : ChatProtocolClient)
    (chatCompletionOptions : positive) (requestOptions : RequestOptions) :
    M PipelineMessage :=
  o <- deref chatCompletionOptions ;;
  let request := build_request client o in
  let message := {| Request := request;
                    BufferResponse := BufferResponse (CreateMessage client);
                    Applied := Some requestOptions |} in
  when (has_logger client) (tell (LogHttpRequest request (SerializeToJson o))) ;;
  ret message.

Definition send (client : ChatProtocolClient) (message : PipelineMessage) :
    M PipelineResponse :=
  tell (Sent message) ;;
  lift (SendAsync client message).

(** [new ChatCompletion(new ChatMessage(string.Empty, string.Empty),
    string.Empty, null, null)] *)
Definition emptyCompletion : ChatCompletion :=
  new_ChatCompletion {| Role := ""; Content := "" |} "" None None.

Definition GetChatCompletionAsync (client : ChatProtocolClient)
    (chatCompletionOptions : positive) (requestOptions : option RequestOptions) :
    M (ClientResult ChatCompletion) :=
  let requestOptions := default new_RequestOptions requestOptions in
  pipelineMessage <-
    CreatePipelineMessage client chatCompletionOptions requestOptions ;;
  response <- send client pipelineMessage ;;
  when (logs_information client) (tell (LogHttpResponse response)) ;;
  if IsError response then
    if is_NoThrow (ErrorOptions requestOptions) then
      ret {| Value := emptyCompletion; RawResponse := response |}
    else throw (ClientResultException None response)
  else
    match ResponseHeaders response !! "Content-Type" with
    | None =>
        throw (ClientResultException
                 (Some "HTTP response header Content-Type is missing.") response)
    | Some contentType =>
        if negb (Contains contentType "application/json") then
          throw (ClientResultException
                   (Some "Content-Type does not contain application/json.")
                   response)
        else
          let jsonString := ResponseContent response in
          when (has_logger client) (tell (LogHttpResponseBody jsonString)) ;;
          tell (Parsed jsonString) ;;
          match JsonDocument_Parse jsonString with
          | None => throw JsonException
          | Some document =>
              match DeserializeChatCompletion document with
              | None => throw JsonException
              | Some chatCompletion =>
                  ret {| Value := chatCompletion; RawResponse := response |}
              end
          end
    end.

(** Modelled from the spec: [JsonLinesAsyncEnumerator.EnumerateFromStream],
    the NDJSON stream decoder over the response's content stream, each line
    parsed as a JSON document and handed to the deserializer. *)
Definition EnumerateFromStream {A : Type}
    (stream : list (list byte)) (deserialize : JsonElement -> option A) :
    NDJSON.run A :=
  NDJSON.getAsyncIterable
    (fun line => JsonDocument_Parse line ≫= deserialize) stream.

Definition GetChatCompletionStreamingAsync (client : ChatProtocolClient)
    (chatCompletionOptions : positive) (requestOptions : option RequestOptions) :
    M (StreamingClientResult ChatCompletionDelta) :=
  let requestOptions := default new_RequestOptions requestOptions in
  set_Stream chatCompletionOptions true ;;
  pipelineMessage <-
    CreatePipelineMessage client chatCompletionOptions requestOptions ;;
  let pipelineMessage := {| Request := Request pipelineMessage;
                            BufferResponse := false;
                            Applied := Applied pipelineMessage |} in
  response <- send client pipelineMessage ;;
  when (logs_information client) (tell (LogHttpResponse response)) ;;
  if IsError response then
    if is_NoThrow (ErrorOptions requestOptions) then
      ret {| StreamingRawResponse := response;
             Enumeration := EmptyAsyncEnumerable |}
    else throw (ClientResultException None response)
  else
    ret {| StreamingRawResponse := response;
           Enumeration := EnumerateFromStream (ContentStream response)
                            DeserializeStreamingChatUpdate |}.

(** The message that a call hands to the pipeline for options [o]. *)
Definition message_for (client : ChatProtocolClient)
    (o : ChatCompletionOptions) (buffer : bool)
    (requestOptions : option RequestOptions) : PipelineMessage :=
  {| Request := build_request client o;
     BufferResponse := buffer;
     Applied := Some (default new_RequestOptions requestOptions) |}.

(** The messages handed to the pipeline, and the documents parsed, in a
    trace. *)
Definition sent (tr : list event) : list PipelineMessage :=
  omap (fun e => match e with Sent m => Some m | _ => None end) tr.

Definition parsed (tr : list event) : list (list byte) :=
  omap (fun e => match e with Parsed j => Some j | _ => None end) tr.

(** [GetChatCompletion] and [GetChatCompletionStreaming]: the asynchronous
    calls, awaited on the spot with [GetAwaiter().GetResult()]. *)
Definition GetChatCompletion (client : ChatProtocolClient)
    (chatCompletionOptions : positive) (requestOptions : option RequestOptions) :
    M (ClientResult ChatCompletion) :=
  GetChatCompletionAsync client chatCompletionOptions requestOptions.

Definition GetChatCompletionStreaming (client : ChatProtocolClient)
    (chatCompletionOptions : positive) (requestOptions : option RequestOptions) :
    M (StreamingClientResult ChatCompletionDelta) :=
  GetChatCompletionStreamingAsync client chatCompletionOptions requestOptions.

End Client.

Arguments Messages {JsonValue} _.
Arguments Stream {JsonValue} _.
Arguments Context {JsonValue} _.
Arguments SessionState {JsonValue} _.
Arguments with_Stream {JsonValue} _ _.
Arguments new_ChatCompletion {JsonValue} _ _ _ _.
Arguments Message {JsonValue} _.
Arguments emptyCompletion {JsonValue}.
Arguments objects {JsonValue} _.
Arguments trace {JsonValue} _.
Arguments build_request {JsonValue} _ _ _.
Arguments CreatePipelineMessage {JsonValue} _ _ _ _ _.
Arguments send {JsonValue} _ _ _.
Arguments message_for {JsonValue} _ _ _ _ _.
Arguments EnumerateFromStream {JsonElement} _ {A} _ _.
Arguments GetChatCompletionAsync {JsonValue JsonElement} _ _ _ _ _ _ _.
Arguments GetChatCompletionStreamingAsync
  {JsonValue JsonElement ChatCompletionDelta} _ _ _ _ _ _ _.

Arguments GetChatCompletion {JsonValue JsonElement} _ _ _ _ _ _ _.
Arguments GetChatCompletionStreaming
  {JsonValue JsonElement ChatCompletionDelta} _ _ _ _ _ _ _.

(** The check that the non-streaming call makes on the Content-Type header
    of a response. *)
Definition accepts_json (response : PipelineResponse) : bool :=
  match ResponseHeaders response !! "Content-Type" with
  | Some contentType => Contains contentType "application/json"
  | None => false
  end.

(** The events that are calls to the logger. *)
Definition is_log (e : event) : bool :=
  match e with
  | LogHttpRequest _ _ | LogHttpResponse _ | LogHttpResponseBody _ => true
  | Sent _ | Parsed _ => false
  end.

Definition logged (tr : list event) : list event := List.filter is_log tr.

(** *** The constructor (ChatProtocolClient.cs, lines 33-55) *)

Record ILoggerFactory : Type := { CreateLogger : ILogger }.

Record ChatProtocolClientOptions : Type := {
  LoggerFactory : option ILoggerFactory;
}.

(** [ApiKeyAuthenticationPolicy.CreateBearerAuthorizationPolicy(credential)] *)
Inductive PipelinePolicy : Type :=
  | BearerAuthorizationPolicy (credential : string).

Record ClientPipeline : Type := {
  pipeline_CreateMessage : PipelineMessage;
  pipeline_SendAsync : PipelineMessage -> result PipelineResponse;
}.

Section Constructor.
(** [ClientPipeline.Create(options, perCallPolicies, perTryPolicies,
    beforeTransportPolicies)] and [new ChatProtocolClientOptions()], both of
    the libraries. *)
Variable ClientPipeline_Create :
  ChatProtocolClientOptions -> list PipelinePolicy -> list PipelinePolicy ->
  list PipelinePolicy -> ClientPipeline.
Variable new_ChatProtocolClientOptions : ChatProtocolClientOptions.

Definition new_ChatProtocolClient (endpoint : string)
    (credentials : option string)
    (options : option ChatProtocolClientOptions) : ChatProtocolClient :=
  let clientOptions := default new_ChatProtocolClientOptions options in
  let logger := match LoggerFactory clientOptions with
                | Some factory => Some (CreateLogger factory)
                | None => None
                end in
  let perTryPolicy := match credentials with
                      | Some credential => [BearerAuthorizationPolicy credential]
                      | None => []
                      end in
  let clientPipeline :=
    ClientPipeline_Create clientOptions [] perTryPolicy [] in
  {| endpoint := endpoint;
     logger := logger;
     CreateMessage := pipeline_CreateMessage clientPipeline;
     SendAsync := pipeline_SendAsync clientPipeline |}.

End Constructor.

(** *** [HttpResponseToString] (ChatProtocolClient.cs, lines 259-271) *)

Definition newline : string := String "010"%char EmptyString.
Definition tab : string := String "009"%char EmptyString.

(** One header of the loop: [$"\n\t\t{header.Key}: {header.Value}"]. *)
Definition header_line (header : string * string) : string :=
  newline +:+ tab +:+ tab +:+ header.1 +:+ ": " +:+ header.2.

(** The rendering over the headers in the order [headers] enumerates them. *)
Definition HttpResponseToString_of (reasonPhrase : string) (status : Z)
    (headers : list (string * string)) : string :=
  let responseString :=
    "Status = " +:+ reasonPhrase +:+ " (" +:+ pretty status +:+
    "), Headers:" +:+ newline +:+ tab +:+ "  {" in
  let responseString :=
    foldl (fun acc header => acc +:+ header_line header)
          responseString headers in
  responseString +:+ newline +:+ tab +:+ "  }".

Definition HttpResponseToString (response : PipelineResponse) : string :=
  HttpResponseToString_of (ReasonPhrase response) (Status response)
    (map_to_list (ResponseHeaders response)).

End DotNet.

(** ** Sample clients, responses and callers *)

Module Samples.
Import DotNet.

Definition fresh_message : PipelineMessage :=
  {| Request := {| Method := "GET"; Uri := ""; Headers := ∅;
                   RequestContent := None |};
     BufferResponse := true;
     Applied := None |}.

Definition not_found : PipelineResponse :=
  {| Status := 404; ReasonPhrase := "Not Found"; IsError := true;
     ResponseHeaders := ∅; ResponseContent := []; ContentStream := [] |}.

Definition html_page : PipelineResponse :=
  {| Status := 200; ReasonPhrase := "OK"; IsError := false;
     ResponseHeaders := {[ "Content-Type" := "text/html" ]};
     ResponseContent := bytes_of "<html/>"; ContentStream := [] |}.

Definition json_answer : PipelineResponse :=
  {| Status := 200; ReasonPhrase := "OK"; IsError := false;
     ResponseHeaders := {[ "Content-Type" := "application/json; charset=utf-8" ]};
     ResponseContent := bytes_of "{}"; ContentStream := [] |}.

(** A streamed answer of two lines, the second cut in two chunks. *)
Definition lines_answer : PipelineResponse :=
  {| Status := 200; ReasonPhrase := "OK"; IsError := false;
     ResponseHeaders := {[ "Content-Type" := "application/x-ndjson" ]};
     ResponseContent := [];
     ContentStream := [bytes_of "{1}" ++ LF :: bytes_of "{2"; bytes_of "}" ++ [LF]] |}.

(** A client without logger whose pipeline answers every message with
    [response]. *)
Definition client_answering (response : PipelineResponse) : ChatProtocolClient :=
  {| endpoint := "https://chat.example/api";
     logger := None;
     CreateMessage := fresh_message;
     SendAsync := fun _ => Ok response |}.

Definition question : ChatCompletionOptions unit :=
  {| Messages := [ {| Role := "user"; Content := "Hello" |} ];
     Stream := false; Context := None; SessionState := None |}.

(** A caller that holds one options object, at reference 1. *)
Definition one_caller : world unit :=
  {| objects := {[ 1%positive := question ]}; trace := [] |}.

Definition no_throw : RequestOptions := {| ErrorOptions := NoThrow |}.

Definition serialize (o : ChatCompletionOptions unit) : string :=
  if Stream o then "stream:true" else "stream:false".

Definition parse (json : list byte) : option (list byte) := Some json.

Definition to_completion (e : list byte) : option (ChatCompletion unit) :=
  Some (new_ChatCompletion
          {| Role := "assistant"; Content := String.string_of_list_byte e |}
          "" None None).

Definition to_delta (e : list byte) : option (list byte) := Some e.

Definition js_not_found : JS.HttpResponse unit :=
  {| JS.status := "404"; JS.response_headers := ∅; JS.response_body := tt |}.

Definition js_bare_ok : JS.HttpResponse unit :=
  {| JS.status := "200"; JS.response_headers := ∅; JS.response_body := tt |}.

(** A runtime that answers every request with [response]. *)
Definition js_answering (response : JS.HttpResponse unit)
    (_ : JS.RequestParameters string unit)
    (_ : JS.AIChatCompletionOptions unit) : JS.promise (JS.HttpResponse unit) :=
  JS.Fulfilled response.

(** A client with a logger that is not enabled for the Information level. *)
Definition quiet_logging_client (response : PipelineResponse) :
    ChatProtocolClient :=
  {| endpoint := "https://chat.example/api";
     logger := Some {| IsEnabled_Information := false |};
     CreateMessage := fresh_message;
     SendAsync := fun _ => Ok response |}.

(** A client whose pipeline fails to deliver. *)
Definition client_failing : ChatProtocolClient :=
  {| endpoint := "https://chat.example/api";
     logger := None;
     CreateMessage := fresh_message;
     SendAsync := fun _ => Throw (PipelineException "connection refused") |}.

(** A pipeline factory: fresh messages carry the bearer token when a policy
    was installed. *)
Definition sample_pipeline (_ : ChatProtocolClientOptions)
    (_ perTry _ : list PipelinePolicy) : ClientPipeline :=
  {| pipeline_CreateMessage :=
       {| Request :=
            {| Method := "GET"; Uri := "";
               Headers := match perTry with
                          | BearerAuthorizationPolicy key :: _ =>
                              {[ "Authorization" := "Bearer " +:+ key ]}
                          | [] => ∅
                          end;
               RequestContent := None |};
          BufferResponse := true; Applied := None |};
     pipeline_SendAsync := fun _ => Ok json_answer |}.

(** A client made by the constructor, with a credential and no options. *)
Definition secret_client : ChatProtocolClient :=
  new_ChatProtocolClient sample_pipeline {| LoggerFactory := None |}
    "https://chat.example/api" (Some "secret") None.

(** A caller whose options reference is null. *)
Definition no_objects : world unit := {| objects := ∅; trace := [] |}.

Definition js_stream_not_found : JS.HttpResponse (list (list byte)) :=
  {| JS.status := "404"; JS.response_headers := ∅; JS.response_body := [] |}.

Definition js_stream_answering (response : JS.HttpResponse (list (list byte)))
    (_ : JS.RequestParameters string unit)
    (_ : JS.AIChatCompletionOptions unit) :
    JS.promise (JS.HttpResponse (list (list byte))) :=
  JS.Fulfilled response.

(** Member reads on primitive values in an environment whose built-in
    prototypes are untouched: the length of a string, nothing else. *)
Definition builtin_read (v : JS.js_value) (_ : nat) (name : string) :
    option JS.js_value :=
  match v with
  | JS.js_string text =>
      if String.eqb name "length"
      then Some (JS.js_number (Z.of_nat (String.length text)))
      else Some JS.js_undefined
  | _ => Some JS.js_undefined
  end.

(** The comparison with 0 of the empty string and of objects without a
    numeric value. *)
Definition never_greater (_ : JS.js_value) : option bool := Some false.

(** A runtime whose clients are the arguments they were created from, and
    which takes no value for a key credential. *)
Definition client_of_arguments (endpoint : string) (arg1 arg2 : JS.js_value) :
    option (string * JS.js_value * JS.js_value) :=
  Some (endpoint, arg1, arg2).

Definition no_key_credential (_ : JS.js_value) : option bool := Some false.

(** A credential object of the TypeScript SDK: its [getToken] is a function
    of length 2, there is no [signRequest]. *)
Definition token_credential : JS.js_value :=
  JS.plain false
    [("getToken", JS.plain true [("length", JS.js_number 2)])].

(** A client options object. *)
Definition client_options : JS.js_value :=
  JS.plain false [("allowInsecureConnection", JS.js_boolean true)].

(** A credential whose [getToken] has length 0, as a function whose first
    parameter has a default value, and which has a [signRequest]. *)
Definition defaulted_credential : JS.js_value :=
  JS.plain false
    [("getToken", JS.plain true [("length", JS.js_number 0)]);
     ("signRequest", JS.plain true [("length", JS.js_number 1)])].

(** An object whose [getToken] getter gives a function on the first read and
    [undefined] afterwards, and which has a [signRequest]. *)
Definition flipping_credential : JS.js_value :=
  JS.js_object false (fun k name =>
    if String.eqb name "getToken" then
      if (k =? 0)%nat then Some (JS.plain true [("length", JS.js_number 1)])
      else Some JS.js_undefined
    else if String.eqb name "signRequest" then Some (JS.js_boolean true)
    else Some JS.js_undefined).

(** A revoked proxy: every member read throws. *)
Definition revoked_proxy : JS.js_value := JS.js_object false (fun _ _ => None).

End Samples.

(** * Properties of the NDJSON stream decoder *)

Module NDJSONProps.
Import NDJSON.

Lemma complete_lines_inv pre :
  complete_lines pre = true -> pre = [] \/ exists p, pre = p ++ [LF].
Proof.
  unfold complete_lines. destruct (last pre) as [b|] eqn:E.
  - intros H. apply Byte.byte_dec_bl in H. subst b.
    apply last_Some in E. by right.
  - intros _. left. by apply last_None.
Qed.

Lemma strip_cr_snoc_CR line : strip_cr (line ++ [CR]) = line.
Proof.
  induction line as [|b line IH]; [done |].
  simpl. rewrite IH. by destruct line.
Qed.

Lemma strip_cr_id line : last line <> Some CR -> strip_cr line = line.
Proof.
  induction line as [|b line IH]; [done |].
  destruct line as [|c line].
  - simpl. intros H. destruct (Byte.eqb b CR) eqn:E; [|done].
    apply Byte.byte_dec_bl in E. congruence.
  - intros H. change (b :: strip_cr (c :: line) = b :: c :: line).
    by rewrite IH.
Qed.

Section DecoderFacts.
Context {T : Type}.
Variable decode : list byte -> option T.

Local Abbreviation drain := (NDJSON.drain decode).
Local Abbreviation feed := (NDJSON.feed decode).
Local Abbreviation finish := (NDJSON.finish decode).
Local Abbreviation close := (NDJSON.close decode).
Local Abbreviation getAsyncIterable := (NDJSON.getAsyncIterable decode).

(** *** Scanning *)

Lemma find_terminator_None buf : find_terminator buf = None <-> LF ∉ buf.
Proof.
  induction buf as [|b buf IH]; simpl.
  - split; [intros _; apply not_elem_of_nil | done].
  - rewrite not_elem_of_cons. destruct (Byte.eqb b LF) eqn:E.
    + apply Byte.byte_dec_bl in E. split; [done | intros [? _]; congruence].
    + apply Byte.eqb_false in E.
      destruct (find_terminator buf) as [[l r]|].
      * split; [done | intros [_ H]; apply IH in H; done].
      * split; [intros _; split; [congruence | by apply IH] | done].
Qed.

Lemma find_terminator_line line rest :
  LF ∉ line -> find_terminator (line ++ LF :: rest) = Some (line, rest).
Proof.
  induction line as [|b line IH]; simpl; [done |].
  rewrite not_elem_of_cons. intros [Hb Hl].
  destruct (Byte.eqb b LF) eqn:E.
  - apply Byte.byte_dec_bl in E. congruence.
  - by rewrite IH.
Qed.

Lemma find_terminator_Some buf line rest :
  find_terminator buf = Some (line, rest) ->
  buf = line ++ LF :: rest /\ LF ∉ line.
Proof.
  revert line rest. induction buf as [|b buf IH]; intros line rest; simpl; [done |].
  destruct (Byte.eqb b LF) eqn:E.
  - apply Byte.byte_dec_bl in E. intros [= <- <-]. subst b.
    split; [done | apply not_elem_of_nil].
  - apply Byte.eqb_false in E.
    destruct (find_terminator buf) as [[l r]|]; [|done].
    intros [= <- <-]. destruct (IH _ _ eq_refl) as [-> Hl].
    split; [done |]. rewrite not_elem_of_cons. split; [congruence | done].
Qed.

(** *** The per-chunk loop, one line at a time *)

Lemma drain_no_terminator buf : LF ∉ buf -> drain buf = ([], Buffered buf).
Proof.
  intros H. apply find_terminator_None in H. funelim (drain buf); congruence.
Qed.

Lemma drain_line line rest :
  LF ∉ line ->
  drain (line ++ LF :: rest) =
    match strip_cr line with
    | [] => drain rest
    | b :: text =>
        match decode (b :: text) with
        | Some v => emit v (drain rest)
        | None => ([], Aborted (b :: text))
        end
    end.
Proof.
  intros H. pose proof (find_terminator_line line rest H) as Hf.
  remember (line ++ LF :: rest) as buf eqn:Hbuf.
  funelim (drain buf); [congruence | ..].
  all: assert (line = line0 /\ rest = rest0) as [-> ->] by (split; congruence).
  all: repeat match goal with
         | Hs : strip_cr _ = _ |- _ => rewrite Hs; clear Hs
         | Hd : decode _ = _ |- _ => rewrite Hd; clear Hd
         end; reflexivity.
Qed.

Lemma resume_emit (v : T) r k : resume (emit v r) k = emit v (resume r k).
Proof. by destruct r as [ys [buf|line]]. Qed.

(** Draining is compositional: bytes that arrive later are scanned from the
    buffer that the earlier bytes left behind. *)
Lemma drain_app x y :
  drain (x ++ y) = resume (drain x) (fun buf => drain (buf ++ y)).
Proof.
  remember (length x) as n eqn:Hn. revert x Hn.
  induction n as [n IH] using lt_wf_ind. intros x ->.
  destruct (find_terminator x) as [[line rest]|] eqn:Hf.
  - apply find_terminator_Some in Hf as [-> Hl].
    assert (length rest < length (line ++ LF :: rest)) as Hlt
      by (rewrite length_app; simpl; lia).
    rewrite <- app_assoc. simpl. rewrite !drain_line by done.
    destruct (strip_cr line) as [|b text].
    + by apply (IH _ Hlt).
    + destruct (decode (b :: text)); [|done].
      by rewrite resume_emit, <- (IH _ Hlt).
  - apply find_terminator_None in Hf.
    rewrite (drain_no_terminator x) by done. simpl.
    by destruct (drain (x ++ y)).
Qed.

(** The line buffer invariant: between chunks the buffer holds no
    terminator. *)
Lemma drain_buffered x ys buf : drain x = (ys, Buffered buf) -> LF ∉ buf.
Proof.
  remember (length x) as n eqn:Hn. revert x ys Hn.
  induction n as [n IH] using lt_wf_ind. intros x ys ->.
  destruct (find_terminator x) as [[line rest]|] eqn:Hf.
  - apply find_terminator_Some in Hf as [-> Hl].
    assert (length rest < length (line ++ LF :: rest)) as Hlt
      by (rewrite length_app; simpl; lia).
    rewrite drain_line by done.
    destruct (strip_cr line) as [|b text].
    + by apply (IH _ Hlt).
    + destruct (decode (b :: text)); [|done].
      destruct (drain rest) as [zs st] eqn:E. unfold emit. simpl.
      intros [= _ ->]. by apply (IH _ Hlt rest zs).
  - apply find_terminator_None in Hf.
    rewrite (drain_no_terminator x) by done. by intros [= _ <-].
Qed.

(** Chunk boundaries are invisible: feeding chunks one by one is draining
    their concatenation. *)
Lemma feed_drain buf chunks :
  LF ∉ buf -> feed buf chunks = drain (buf ++ concat chunks).
Proof.
  revert buf. induction chunks as [|c chunks IH]; intros buf Hbuf; simpl.
  - by rewrite app_nil_r, drain_no_terminator.
  - rewrite app_assoc, (drain_app (buf ++ c)).
    destruct (drain (buf ++ c)) as [ys [buf'|line]] eqn:E; [|done].
    simpl. rewrite (IH buf'); [done | by eapply drain_buffered].
Qed.

Lemma getAsyncIterable_concat chunks :
  getAsyncIterable chunks = close (drain (concat chunks)).
Proof.
  unfold getAsyncIterable. by rewrite feed_drain by apply not_elem_of_nil.
Qed.

Lemma drain_nil : drain [] = ([], Buffered []).
Proof. apply drain_no_terminator, not_elem_of_nil. Qed.

(** After a stretch of complete lines the buffer is empty. *)
Lemma drain_complete pre ys buf :
  complete_lines pre = true -> drain pre = (ys, Buffered buf) -> buf = [].
Proof.
  intros [->|[p ->]]%complete_lines_inv.
  - rewrite drain_nil. by intros [= _ <-].
  - rewrite drain_app. destruct (drain p) as [zs [b|l]] eqn:E; [|done].
    apply drain_buffered in E. simpl. rewrite (drain_line b []) by done.
    rewrite drain_nil. destruct (strip_cr b) as [|c text].
    + by intros [= _ <-].
    + destruct (decode (c :: text)); [|done]. by intros [= _ <-].
Qed.

Lemma drain_split pre rest :
  complete_lines pre = true ->
  drain (pre ++ rest) = resume (drain pre) (fun _ => drain rest).
Proof.
  intros Hpre. rewrite drain_app.
  destruct (drain pre) as [ys [buf|line]] eqn:E; [|done].
  by rewrite (drain_complete _ _ _ Hpre E).
Qed.

Lemma close_emit v r : close (emit v r) = after [v] (close r).
Proof. by destruct r as [ys [buf|line]]. Qed.

(** The run over a stretch of complete lines followed by more bytes. *)
Lemma close_split pre rest ys :
  complete_lines pre = true ->
  close (drain pre) = Run ys Completed ->
  close (drain (pre ++ rest)) = after ys (close (drain rest)).
Proof.
  intros Hpre. rewrite (drain_split _ _ Hpre).
  destruct (drain pre) as [zs [buf|line]] eqn:E; [|done].
  rewrite (drain_complete _ _ _ Hpre E). unfold close at 1, after. simpl.
  rewrite app_nil_r. intros [= ->].
  destruct (drain rest) as [ws [buf'|line]]; unfold after; simpl; [|done].
  by rewrite app_assoc.
Qed.

Lemma getAsyncIterable_single w : getAsyncIterable [w] = close (drain w).
Proof. rewrite getAsyncIterable_concat. simpl. by rewrite app_nil_r. Qed.

(** The run over a stretch of complete lines followed by one more terminated
    line. *)
Lemma close_line pre line post ys :
  complete_lines pre = true -> LF ∉ line ->
  close (drain pre) = Run ys Completed ->
  close (drain (pre ++ line ++ LF :: post)) =
    after ys (close (match strip_cr line with
                     | [] => drain post
                     | b :: text =>
                         match decode (b :: text) with
                         | Some v => emit v (drain post)
                         | None => ([], Aborted (b :: text))
                         end
                     end)).
Proof.
  intros Hpre Hline Hys. rewrite (close_split _ _ _ Hpre Hys).
  by rewrite drain_line.
Qed.

(** *** Round trip under arbitrary chunking *)

(** C1. Let every message of M encode to a single non-blank line (no
    terminator byte inside, not empty, no trailing carriage return) that
    decodes back to the message. However the join of the encodings with the
    terminator is cut into chunks, also in the middle of a line, the decoder
    yields exactly M, in order, and completes. *)
Theorem roundtrip_any_chunking (encode : T -> list byte) (M : list T)
    (chunks : list (list byte)) :
  Forall (fun m => (LF ∉ encode m) /\ encode m <> [] /\
                   last (encode m) <> Some CR /\
                   decode (encode m) = Some m) M ->
  concat chunks = join_lines (encode <$> M) ->
  getAsyncIterable chunks = Run M Completed.
Proof.
  intros HM Hc. rewrite getAsyncIterable_concat, Hc. clear Hc chunks.
  induction HM as [|m M (Hlf & Hne & Hcr & Hdec) HM IH].
  - simpl. by rewrite drain_nil.
  - destruct M as [|m' M'].
    + simpl. rewrite drain_no_terminator by done.
      unfold NDJSON.close, NDJSON.finish, after.
      destruct (encode m) as [|b text] eqn:E; [done |].
      by rewrite Hdec.
    + change (join_lines (encode <$> (m :: m' :: M')))
        with (encode m ++ LF :: join_lines (encode <$> (m' :: M'))).
      rewrite drain_line by done. rewrite (strip_cr_id _ Hcr).
      destruct (encode m) as [|b text] eqn:E; [done |].
      rewrite Hdec, close_emit, IH. done.
Qed.

(** *** Abort on the first line that fails to decode *)

(** C2. Let the stream be a stretch of complete lines that all decode,
    yielding ys, followed by a line on which decode fails. The decoder yields
    ys and then aborts with a DecodeError carrying the text of the failing
    line, whatever follows that line in the stream and however the stream is
    chunked. The failing line is either terminated (its text is the line
    without its trailing carriage return) or the unterminated remainder at the
    end of the stream. *)
Theorem decode_failure_aborts (chunks : list (list byte))
    (pre line : list byte) (ys : list T) :
  complete_lines pre = true -> LF ∉ line ->
  getAsyncIterable [pre] = Run ys Completed ->
  (forall post,
     concat chunks = pre ++ line ++ LF :: post ->
     strip_cr line <> [] -> decode (strip_cr line) = None ->
     getAsyncIterable chunks = Run ys (DecodeError (strip_cr line))) /\
  (concat chunks = pre ++ line ->
     line <> [] -> decode line = None ->
     getAsyncIterable chunks = Run ys (DecodeError line)).
Proof.
  intros Hpre Hline Hys. rewrite getAsyncIterable_single in Hys. split.
  - intros post Hc Hne Hdec. rewrite getAsyncIterable_concat, Hc.
    rewrite (close_line _ _ _ _ Hpre Hline Hys).
    destruct (strip_cr line) as [|b text]; [done |].
    rewrite Hdec. unfold after. simpl. by rewrite app_nil_r.
  - intros Hc Hne Hdec. rewrite getAsyncIterable_concat, Hc.
    rewrite (close_split _ _ _ Hpre Hys).
    rewrite drain_no_terminator by done.
    unfold NDJSON.close, NDJSON.finish, after.
    destruct line as [|b text]; [done |].
    rewrite Hdec. simpl. by rewrite !app_nil_r.
Qed.

(** *** Blank lines *)

Lemma drain_blank blank post :
  blank = [] \/ blank = [CR] -> drain (blank ++ LF :: post) = drain post.
Proof.
  intros [-> | ->].
  - by rewrite (drain_line [] post) by apply not_elem_of_nil.
  - rewrite (drain_line [CR] post); [done |].
    rewrite not_elem_of_cons. split; [done | apply not_elem_of_nil].
Qed.

(** C3. A blank line never produces an item. (1) Removing from a stream a
    blank line (empty, or a lone carriage return) that stands between
    terminators leaves the run unchanged. (2) When the stream ends right after
    a terminator, so that the remainder is empty, the end of the stream adds
    nothing to what was yielded while the chunks were consumed. (3) The single
    chunk made of two terminators, the text {"a":1} and two terminators
    yields exactly the one item that the text decodes to. *)
Theorem blank_lines_skipped :
  (forall chunks chunks' pre blank post,
     complete_lines pre = true -> blank = [] \/ blank = [CR] ->
     concat chunks = pre ++ blank ++ LF :: post ->
     concat chunks' = pre ++ post ->
     getAsyncIterable chunks = getAsyncIterable chunks') /\
  (forall chunks,
     complete_lines (concat chunks) = true ->
     getAsyncIterable chunks =
       Run (feed [] chunks).1
           (match (feed [] chunks).2 with
            | Buffered _ => Completed
            | Aborted line => DecodeError line
            end)) /\
  (forall v,
     decode json_a1 = Some v ->
     getAsyncIterable [[LF; LF] ++ json_a1 ++ [LF; LF]] = Run [v] Completed).
Proof.
  split; [|split].
  - intros chunks chunks' pre blank post Hpre Hblank Hc Hc'.
    rewrite !getAsyncIterable_concat, Hc, Hc'.
    by rewrite !(drain_split _ _ Hpre), (drain_blank _ _ Hblank).
  - intros chunks Hcomplete. unfold NDJSON.getAsyncIterable.
    rewrite feed_drain by apply not_elem_of_nil. simpl.
    destruct (drain (concat chunks)) as [ys [buf|line]] eqn:E; [|done].
    rewrite (drain_complete _ _ _ Hcomplete E). unfold NDJSON.close, after.
    simpl. by rewrite app_nil_r.
  - intros v Hv. rewrite getAsyncIterable_single.
    change ([LF; LF] ++ json_a1 ++ [LF; LF])
      with ([] ++ LF :: [] ++ LF :: json_a1 ++ LF :: [] ++ LF :: []).
    rewrite !drain_blank by (by left).
    rewrite drain_line by (by apply (bool_decide_unpack _)).
    rewrite (strip_cr_id json_a1) by done.
    unfold json_a1 in *. cbv beta iota.
    rewrite Hv, drain_blank by (by left). by rewrite drain_nil.
Qed.

(** *** The unterminated final line *)

(** C4. Let the stream be a stretch of complete lines that all decode,
    yielding ys, followed by a remainder with no terminator. When the chunks
    have been consumed ys has been yielded and the buffer holds exactly the
    remainder. At the end of the stream an empty remainder adds nothing, and a
    non-empty remainder is decoded as the final line and its item is yielded
    once, after ys. *)
Theorem final_line_without_terminator (chunks : list (list byte))
    (pre rem : list byte) (ys : list T) :
  complete_lines pre = true -> LF ∉ rem ->
  concat chunks = pre ++ rem ->
  getAsyncIterable [pre] = Run ys Completed ->
  feed [] chunks = (ys, Buffered rem) /\
  (rem = [] -> getAsyncIterable chunks = Run ys Completed) /\
  (forall v, rem <> [] -> decode rem = Some v ->
     getAsyncIterable chunks = Run (ys ++ [v]) Completed).
Proof.
  intros Hpre Hrem Hc Hys. rewrite getAsyncIterable_single in Hys.
  assert (feed [] chunks = (ys, Buffered rem)) as Hfeed.
  { rewrite feed_drain by apply not_elem_of_nil. simpl.
    rewrite Hc, (drain_split _ _ Hpre), (drain_no_terminator rem) by done.
    destruct (drain pre) as [zs [buf|line]] eqn:E; [|done].
    rewrite (drain_complete _ _ _ Hpre E) in Hys.
    unfold NDJSON.close, after in Hys. simpl in Hys.
    injection Hys as <-. simpl. by rewrite !app_nil_r. }
  split; [done |]. unfold NDJSON.getAsyncIterable. rewrite Hfeed.
  unfold NDJSON.close, NDJSON.finish, after. split.
  - intros ->. simpl. by rewrite app_nil_r.
  - intros v Hne Hv. destruct rem as [|b text]; [done |]. by rewrite Hv.
Qed.

(** *** Carriage returns *)

(** C8. (1) For every complete line, the bytes before a terminator, it is the
    text left after stripping one trailing carriage return that is tested for
    emptiness and handed to the decode function. (2) Stripping removes exactly
    the one carriage return that ends a line. (3) So for a line whose text does
    not itself end with a carriage return, the stream with the line terminated
    by carriage return and line feed has the same run as the stream with the
    line terminated by the line feed alone. *)
Theorem crlf_terminator :
  (forall candidate post,
     LF ∉ candidate ->
     drain (candidate ++ LF :: post) =
       match strip_cr candidate with
       | [] => drain post
       | b :: text =>
           match decode (b :: text) with
           | Some v => emit v (drain post)
           | None => ([], Aborted (b :: text))
           end
       end) /\
  (forall line, strip_cr (line ++ [CR]) = line) /\
  (forall pre line post chunks chunks',
     complete_lines pre = true -> LF ∉ line -> last line <> Some CR ->
     concat chunks = pre ++ line ++ CR :: LF :: post ->
     concat chunks' = pre ++ line ++ LF :: post ->
     getAsyncIterable chunks = getAsyncIterable chunks').
Proof.
  split; [exact drain_line | split; [exact strip_cr_snoc_CR |]].
  intros pre line post chunks chunks' Hpre Hline Hcr Hc Hc'.
  assert (line ++ CR :: LF :: post = (line ++ [CR]) ++ LF :: post) as Hcrlf
    by (by rewrite <- app_assoc).
  assert (LF ∉ line ++ [CR]) as Hline'.
  { rewrite not_elem_of_app, not_elem_of_cons.
    split; [done | split; [done | apply not_elem_of_nil]]. }
  rewrite !getAsyncIterable_concat, Hc, Hc', !(drain_split _ _ Hpre).
  rewrite Hcrlf, !drain_line by done.
  by rewrite strip_cr_snoc_CR, (strip_cr_id _ Hcr).
Qed.

End DecoderFacts.

(** *** The theorems at work on concrete streams *)

Ltac concrete :=
  solve [ reflexivity | discriminate | by apply (bool_decide_unpack _) ].

(** The first scenario of the specification: two lines in two chunks, the
    second line cut after its colon. *)
Example two_lines_in_two_chunks :
  getAsyncIterable brace_decode
    [json_a1 ++ LF :: bytes_of "{a:"; bytes_of "2}" ++ [LF]] =
  Run [json_a1; bytes_of "{a:2}"] Completed.
Proof. reflexivity. Qed.

(** Two messages, cut into three chunks in the middle of the second line. *)
Lemma roundtrip_any_chunking_witness :
  getAsyncIterable brace_decode
    [bytes_of "{1}"; LF :: bytes_of "{2"; bytes_of "3}"] =
  Run [bytes_of "{1}"; bytes_of "{23}"] Completed.
Proof.
  apply (roundtrip_any_chunking brace_decode id).
  - repeat (apply Forall_cons_2; [repeat split; concrete |]).
    apply Forall_nil_2.
  - reflexivity.
Defined.

(** A malformed line between two well-formed ones. *)
Lemma decode_failure_aborts_witness :
  getAsyncIterable brace_decode
    [bytes_of "{a}" ++ LF :: bytes_of "x" ++ LF :: bytes_of "{b}" ++ [LF]] =
  Run [bytes_of "{a}"] (DecodeError (bytes_of "x")).
Proof.
  apply (proj1 (decode_failure_aborts brace_decode
                  [bytes_of "{a}" ++ LF :: bytes_of "x" ++ LF :: bytes_of "{b}" ++ [LF]]
                  (bytes_of "{a}" ++ [LF]) (bytes_of "x") [bytes_of "{a}"]
                  ltac:(concrete) ltac:(concrete) ltac:(concrete))
               (bytes_of "{b}" ++ [LF])); concrete.
Defined.

(** A blank line between two items, and the scenario of the specification. *)
Lemma blank_lines_skipped_witness :
  getAsyncIterable brace_decode
    [bytes_of "{a}" ++ LF :: LF :: bytes_of "{b}" ++ [LF]] =
  getAsyncIterable brace_decode
    [bytes_of "{a}" ++ LF :: bytes_of "{b}" ++ [LF]] /\
  getAsyncIterable brace_decode [[LF; LF] ++ json_a1 ++ [LF; LF]] =
  Run [json_a1] Completed.
Proof.
  destruct (blank_lines_skipped brace_decode) as (Hskip & _ & Hscenario).
  split.
  - apply (Hskip _ _ (bytes_of "{a}" ++ [LF]) [] (bytes_of "{b}" ++ [LF]));
      first [ concrete | by left ].
  - apply Hscenario. reflexivity.
Defined.

(** The last line arrives in two chunks and has no terminator. *)
Lemma final_line_without_terminator_witness :
  getAsyncIterable brace_decode
    [bytes_of "{a}" ++ LF :: bytes_of "{b"; bytes_of "}"] =
  Run [bytes_of "{a}"; bytes_of "{b}"] Completed.
Proof.
  apply (proj2 (proj2 (final_line_without_terminator brace_decode
                  [bytes_of "{a}" ++ LF :: bytes_of "{b"; bytes_of "}"]
                  (bytes_of "{a}" ++ [LF]) (bytes_of "{b}") [bytes_of "{a}"]
                  ltac:(concrete) ltac:(concrete) ltac:(concrete)
                  ltac:(concrete)))); concrete.
Defined.

(** The same two lines with both kinds of terminator. *)
Lemma crlf_terminator_witness :
  getAsyncIterable brace_decode
    [bytes_of "{a}" ++ CR :: LF :: bytes_of "{b}" ++ [LF]] =
  getAsyncIterable brace_decode
    [bytes_of "{a}" ++ LF :: bytes_of "{b}" ++ [LF]].
Proof.
  apply (proj2 (proj2 (crlf_terminator brace_decode))
           [] (bytes_of "{a}") (bytes_of "{b}" ++ [LF])); concrete.
Defined.

End NDJSONProps.

(** * Properties of the completion calls *)


(** * Properties of the completion calls *)

Module ClientProps.

(** On the three characters of an HTTP status code the unanchored pattern
    decides the 2xx class. *)
Lemma regex_2dd_test_three (s : string) :
  String.length s = 3 -> JS.regex_2dd_test s = JS.three_digit_2xx s.
Proof.
  destruct s as [|a [|b [|c [|d s]]]]; try discriminate. intros _. simpl.
  destruct (Ascii.eqb a "2"%char), (Ascii.eqb b "2"%char),
    (Ascii.eqb c "2"%char), (JS.is_digit b), (JS.is_digit c); reflexivity.
Qed.

Lemma sent_snoc (tr : list DotNet.event) e :
  DotNet.sent (tr ++ [e]) =
    DotNet.sent tr ++ match e with DotNet.Sent m => [m] | _ => [] end.
Proof. unfold DotNet.sent. rewrite omap_app. by destruct e. Qed.

Lemma parsed_snoc (tr : list DotNet.event) e :
  DotNet.parsed (tr ++ [e]) =
    DotNet.parsed tr ++ match e with DotNet.Parsed j => [j] | _ => [] end.
Proof. unfold DotNet.parsed. rewrite omap_app. by destruct e. Qed.

(** Unfold a call down to the world it runs in. *)
Ltac run_call :=
  unfold DotNet.GetChatCompletionAsync, DotNet.GetChatCompletionStreamingAsync,
    DotNet.CreatePipelineMessage, DotNet.send, DotNet.bind, DotNet.deref,
    DotNet.set_Stream, DotNet.when, DotNet.tell, DotNet.ret, DotNet.throw,
    DotNet.lift, DotNet.has_logger, DotNet.logs_information;
  simpl.

Ltac trace_simpl :=
  simpl; repeat (rewrite ?sent_snoc, ?parsed_snoc; simpl); rewrite ?app_nil_r.

Section CSharp.
Context {JsonValue JsonElement ChatCompletionDelta : Type}.

Local Abbreviation ChatCompletionOptions := (DotNet.ChatCompletionOptions JsonValue).
Local Abbreviation ChatCompletion := (DotNet.ChatCompletion JsonValue).
Local Abbreviation world := (DotNet.world JsonValue).

Variable SerializeToJson : ChatCompletionOptions -> string.
Variable JsonDocument_Parse : list byte -> option JsonElement.
Variable DeserializeChatCompletion : JsonElement -> option ChatCompletion.
Variable DeserializeStreamingChatUpdate : JsonElement -> option ChatCompletionDelta.

Local Abbreviation build_request := (DotNet.build_request SerializeToJson).
Local Abbreviation GetChatCompletionAsync :=
  (DotNet.GetChatCompletionAsync SerializeToJson
     JsonDocument_Parse DeserializeChatCompletion).
Local Abbreviation GetChatCompletionStreamingAsync :=
  (DotNet.GetChatCompletionStreamingAsync SerializeToJson JsonDocument_Parse
     DeserializeStreamingChatUpdate).

Local Abbreviation message_for := (DotNet.message_for SerializeToJson).

Lemma build_request_content_type client o :
  DotNet.Headers (build_request client o) !! "Content-Type" =
    Some "application/json".
Proof.
  unfold DotNet.build_request. simpl.
  destruct (DotNet.Stream o); simpl.
  - apply lookup_insert_eq.
  - rewrite lookup_insert_ne by done. apply lookup_insert_eq.
Qed.

Lemma build_request_accept client o :
  DotNet.Headers (DotNet.Request (DotNet.CreateMessage client)) !! "Accept" = None ->
  DotNet.Headers (build_request client o) !! "Accept" =
    if DotNet.Stream o then None else Some "application/json".
Proof.
  intros Hfresh. unfold DotNet.build_request. simpl.
  destruct (DotNet.Stream o); simpl.
  - rewrite lookup_insert_ne by done.
    destruct (_ !! "User-Agent"); [done |]. by rewrite lookup_insert_ne.
  - apply lookup_insert_eq.
Qed.

(** What the non-streaming call does up to the classification of the
    response: it sends the message built from the options as they are, and
    parses nothing. *)
Lemma GetChatCompletionAsync_error client r ro (w : world) o response :
  DotNet.objects w !! r = Some o ->
  DotNet.SendAsync client
    (message_for client o (DotNet.BufferResponse (DotNet.CreateMessage client)) ro)
    = DotNet.Ok response ->
  DotNet.IsError response = true ->
  exists w',
    GetChatCompletionAsync client r ro w =
      (w', if DotNet.is_NoThrow
                (DotNet.ErrorOptions (default DotNet.new_RequestOptions ro))
           then DotNet.Ok {| DotNet.Value := DotNet.emptyCompletion;
                             DotNet.RawResponse := response |}
           else DotNet.Throw (DotNet.ClientResultException None response)) /\
    DotNet.objects w' = DotNet.objects w /\
    DotNet.parsed (DotNet.trace w') = DotNet.parsed (DotNet.trace w).
Proof.
  intros Ho Hsend Herr. unfold DotNet.message_for in Hsend. run_call. rewrite Ho.
  destruct (DotNet.logger client) as [l|]; simpl; rewrite Hsend; simpl;
    try destruct (DotNet.IsEnabled_Information l); simpl; rewrite Herr;
    destruct (DotNet.is_NoThrow _); eexists; (split; [reflexivity |]);
    split; try reflexivity; by trace_simpl.
Qed.

Ltac split_call :=
  repeat (simpl;
    match goal with
    | |- context [DotNet.logger ?c] => destruct (DotNet.logger c) as [?|]
    | |- context [DotNet.IsEnabled_Information ?l] =>
        destruct (DotNet.IsEnabled_Information l)
    | |- context [DotNet.SendAsync ?c ?m] => destruct (DotNet.SendAsync c m)
    | |- context [DotNet.IsError ?x] => destruct (DotNet.IsError x)
    | |- context [DotNet.is_NoThrow ?x] => destruct (DotNet.is_NoThrow x)
    | |- context [DotNet.ResponseHeaders ?x !! ?k] =>
        destruct (DotNet.ResponseHeaders x !! k)
    | |- context [DotNet.Contains ?a ?b] => destruct (DotNet.Contains a b)
    | |- context [JsonDocument_Parse ?x] => destruct (JsonDocument_Parse x)
    | |- context [DeserializeChatCompletion ?x] =>
        destruct (DeserializeChatCompletion x)
    end); simpl.

(** The non-streaming call hands the pipeline exactly one message, built from
    the options as the caller left them, and leaves the options alone. *)
Lemma GetChatCompletionAsync_sent client r ro (w w' : world) o res :
  DotNet.objects w !! r = Some o ->
  GetChatCompletionAsync client r ro w = (w', res) ->
  DotNet.sent (DotNet.trace w') =
    DotNet.sent (DotNet.trace w) ++
    [message_for client o
       (DotNet.BufferResponse (DotNet.CreateMessage client)) ro] /\
  DotNet.objects w' = DotNet.objects w.
Proof.
  intros Ho. unfold DotNet.message_for. run_call. rewrite Ho.
  split_call; intros [= <- <-]; by trace_simpl.
Qed.

(** The streaming call first sets the flag of the caller's options, then hands
    the pipeline exactly one message, built from the options so changed. *)
Lemma GetChatCompletionStreamingAsync_sent client r ro (w w' : world) o res :
  DotNet.objects w !! r = Some o ->
  GetChatCompletionStreamingAsync client r ro w = (w', res) ->
  DotNet.sent (DotNet.trace w') =
    DotNet.sent (DotNet.trace w) ++
    [message_for client (DotNet.with_Stream true o) false ro] /\
  DotNet.objects w' = <[r := DotNet.with_Stream true o]> (DotNet.objects w).
Proof.
  intros Ho. unfold DotNet.message_for. run_call. rewrite Ho. simpl.
  rewrite lookup_insert_eq.
  split_call; intros [= <- <-]; by trace_simpl.
Qed.

Lemma GetChatCompletionStreamingAsync_error client r ro (w : world) o response :
  DotNet.objects w !! r = Some o ->
  DotNet.SendAsync client (message_for client (DotNet.with_Stream true o) false ro)
    = DotNet.Ok response ->
  DotNet.IsError response = true ->
  exists w',
    GetChatCompletionStreamingAsync client r ro w =
      (w', if DotNet.is_NoThrow
                (DotNet.ErrorOptions (default DotNet.new_RequestOptions ro))
           then DotNet.Ok {| DotNet.StreamingRawResponse := response;
                             DotNet.Enumeration :=
                               NDJSON.Run [] NDJSON.Completed |}
           else DotNet.Throw (DotNet.ClientResultException None response)).
Proof.
  intros Ho Hsend Herr. unfold DotNet.message_for in Hsend. run_call. rewrite Ho.
  simpl. rewrite lookup_insert_eq.
  destruct (DotNet.logger client) as [l|]; simpl; rewrite Hsend; simpl;
    try destruct (DotNet.IsEnabled_Information l); simpl; rewrite Herr;
    destruct (DotNet.is_NoThrow _); eexists; reflexivity.
Qed.

(** C9. With ErrorOptions set to NoThrow and a response that the pipeline
    classifies as an error, neither call throws: GetChatCompletionAsync
    returns a result holding the empty completion, whose message has the empty
    role and the empty content, and GetChatCompletionStreamingAsync returns a
    streaming result whose enumeration yields nothing and completes. *)
Theorem NoThrow_returns_empty client r requestOptions (w : world) o response :
  DotNet.objects w !! r = Some o ->
  DotNet.ErrorOptions requestOptions = DotNet.NoThrow ->
  DotNet.IsError response = true ->
  (DotNet.SendAsync client
     (message_for client o (DotNet.BufferResponse (DotNet.CreateMessage client))
        (Some requestOptions)) = DotNet.Ok response ->
   exists w',
     GetChatCompletionAsync client r (Some requestOptions) w =
       (w', DotNet.Ok
              {| DotNet.Value :=
                   DotNet.new_ChatCompletion
                     {| DotNet.Role := ""; DotNet.Content := "" |} "" None None;
                 DotNet.RawResponse := response |})) /\
  (DotNet.SendAsync client
     (message_for client (DotNet.with_Stream true o) false (Some requestOptions))
     = DotNet.Ok response ->
   exists w',
     GetChatCompletionStreamingAsync client r (Some requestOptions) w =
       (w', DotNet.Ok
              {| DotNet.StreamingRawResponse := response;
                 DotNet.Enumeration := NDJSON.Run [] NDJSON.Completed |})).
Proof.
  intros Ho Hno Herr. split; intros Hsend.
  - destruct (GetChatCompletionAsync_error _ _ _ _ _ _ Ho Hsend Herr)
      as (w' & Hcall & _).
    exists w'. rewrite Hcall. simpl. by rewrite Hno.
  - destruct (GetChatCompletionStreamingAsync_error _ _ _ _ _ _ Ho Hsend Herr)
      as (w' & Hcall).
    exists w'. rewrite Hcall. simpl. by rewrite Hno.
Qed.

(** C10. A call to GetChatCompletionStreamingAsync, however it ends, leaves
    the Stream field of the caller's options set to true. A later call to
    GetChatCompletionAsync with the same options object does not reset it:
    the one message it sends has for body the serialization of the options
    with Stream true and, the pipeline's fresh message having no Accept
    header, carries no Accept header. *)
Theorem Stream_flag_persists client r ro1 ro2 (w w1 w2 : world) o res1 res2 :
  DotNet.objects w !! r = Some o ->
  DotNet.Headers (DotNet.Request (DotNet.CreateMessage client)) !! "Accept" = None ->
  GetChatCompletionStreamingAsync client r ro1 w = (w1, res1) ->
  GetChatCompletionAsync client r ro2 w1 = (w2, res2) ->
  let o1 := DotNet.with_Stream true o in
  DotNet.Stream o1 = true /\
  DotNet.objects w1 !! r = Some o1 /\
  DotNet.objects w2 !! r = Some o1 /\
  exists message,
    DotNet.sent (DotNet.trace w2) = DotNet.sent (DotNet.trace w1) ++ [message] /\
    DotNet.RequestContent (DotNet.Request message) = Some (SerializeToJson o1) /\
    DotNet.Headers (DotNet.Request message) !! "Accept" = None.
Proof.
  intros Ho Hfresh Hstream Hplain o1.
  destruct (GetChatCompletionStreamingAsync_sent _ _ _ _ _ _ _ Ho Hstream)
    as [_ Hobjects].
  assert (DotNet.objects w1 !! r = Some o1) as Ho1
    by (rewrite Hobjects; apply lookup_insert_eq).
  destruct (GetChatCompletionAsync_sent _ _ _ _ _ _ _ Ho1 Hplain)
    as [Hsent Hobjects2].
  split; [done |]. split; [done |]. split; [by rewrite Hobjects2 |].
  eexists. split; [exact Hsent |]. split; [done |].
  unfold DotNet.message_for. cbn [DotNet.Request].
  by rewrite (build_request_accept _ _ Hfresh).
Qed.

(** C5 (amended). An error answer ends the non-streaming call, except under
    NoThrow. In the TypeScript client, when the runtime's response has a
    three-character status that is not a 2xx code, getCompletion rejects with
    the error "Request failed with status code <status>" and returns no
    completion, whatever body the runtime delivered with the response. In
    the C# client, when the pipeline classifies the response as an error
    (response.IsError), GetChatCompletionAsync throws a ClientResultException
    carrying the response, and with it the status, if ErrorOptions is not
    NoThrow, and returns a result holding the empty completion if it is; in
    both C# cases the call parses no document and leaves the caller's options
    as they were. *)
Theorem error_status_is_terminal :
  (forall (AIChatMessage : Type)
          (post : JS.RequestParameters AIChatMessage JsonValue ->
                  JS.AIChatCompletionOptions JsonValue ->
                  JS.promise (JS.HttpResponse JsonValue))
          messages options response,
     post (JS.getCompletion_request messages options) options =
       JS.Fulfilled response ->
     String.length (JS.status response) = 3 ->
     JS.three_digit_2xx (JS.status response) = false ->
     JS.getCompletion post messages options =
       JS.Rejected (JS.Error ("Request failed with status code " +:+
                              JS.status response))) /\
  (forall client r ro (w : world) o response,
     DotNet.objects w !! r = Some o ->
     DotNet.SendAsync client
       (message_for client o
          (DotNet.BufferResponse (DotNet.CreateMessage client)) ro)
       = DotNet.Ok response ->
     DotNet.IsError response = true ->
     exists w',
       GetChatCompletionAsync client r ro w =
         (w', if DotNet.is_NoThrow
                   (DotNet.ErrorOptions (default DotNet.new_RequestOptions ro))
              then DotNet.Ok {| DotNet.Value := DotNet.emptyCompletion;
                                DotNet.RawResponse := response |}
              else DotNet.Throw (DotNet.ClientResultException None response)) /\
       DotNet.objects w' = DotNet.objects w /\
       DotNet.parsed (DotNet.trace w') = DotNet.parsed (DotNet.trace w)).
Proof.
  split.
  - intros AIChatMessage post messages options response Hpost Hlen Hnot.
    unfold JS.getCompletion. rewrite Hpost.
    by rewrite (regex_2dd_test_three _ Hlen), Hnot.
  - intros client r ro w o response. apply GetChatCompletionAsync_error.
Qed.

(** C7 (amended). In the C# client, when the response is not classified as an
    error and its Content-Type header is missing, or present without the
    substring application/json, GetChatCompletionAsync throws a
    ClientResultException that names the defect and carries the response, and
    parses nothing. The TypeScript client does not look at the response
    headers: getCompletion returns the body of every response whose status
    matches the 2xx pattern. *)
Theorem content_type_is_checked :
  (forall client r ro (w : world) o response,
     DotNet.objects w !! r = Some o ->
     DotNet.SendAsync client
       (message_for client o
          (DotNet.BufferResponse (DotNet.CreateMessage client)) ro)
       = DotNet.Ok response ->
     DotNet.IsError response = false ->
     match DotNet.ResponseHeaders response !! "Content-Type" with
     | None => true
     | Some contentType => negb (DotNet.Contains contentType "application/json")
     end = true ->
     exists w',
       GetChatCompletionAsync client r ro w =
         (w', DotNet.Throw
                (DotNet.ClientResultException
                   (Some (match DotNet.ResponseHeaders response !! "Content-Type" with
                          | None => "HTTP response header Content-Type is missing."
                          | Some _ => "Content-Type does not contain application/json."
                          end))
                   response)) /\
       DotNet.parsed (DotNet.trace w') = DotNet.parsed (DotNet.trace w)) /\
  (forall (AIChatMessage : Type)
          (post : JS.RequestParameters AIChatMessage JsonValue ->
                  JS.AIChatCompletionOptions JsonValue ->
                  JS.promise (JS.HttpResponse JsonValue))
          messages options response,
     post (JS.getCompletion_request messages options) options =
       JS.Fulfilled response ->
     JS.regex_2dd_test (JS.status response) = true ->
     JS.getCompletion post messages options =
       JS.Fulfilled (JS.response_body response)).
Proof.
  split.
  - intros client r ro w o response Ho Hsend Hok Hct.
    unfold DotNet.message_for in Hsend. run_call. rewrite Ho.
    destruct (DotNet.logger client) as [l|]; simpl; rewrite Hsend; simpl;
      try destruct (DotNet.IsEnabled_Information l); simpl; rewrite Hok;
      destruct (DotNet.ResponseHeaders response !! "Content-Type") as [ct|];
      simpl; try (apply negb_true_iff in Hct; rewrite Hct; simpl);
      eexists; (split; [reflexivity | by trace_simpl]).
  - intros AIChatMessage post messages options response Hpost Hok.
    unfold JS.getCompletion. by rewrite Hpost, Hok.
Qed.

(** C6 (amended). In the TypeScript client both methods build a request whose
    body holds the messages, the stream flag, the context and the session
    state, with stream false in getCompletion and true in
    getStreamedCompletion, and whose only header is Content-Type:
    application/json; no Accept header is set in either. In the C# client the
    request carries Content-Type: application/json and the serialized options
    as body; the pipeline's fresh message having no Accept header, the request
    carries Accept: application/json exactly when the Stream flag of the
    options is false. The streaming method sends the request built from the
    options with the flag set to true; the non-streaming method, called with
    options whose flag is false, sends the request built from them. *)
Theorem request_construction :
  (forall (AIChatMessage : Type) (messages : list AIChatMessage)
          (options : JS.AIChatCompletionOptions JsonValue),
     let plain := JS.getCompletion_request messages options in
     let streamed := JS.getStreamedCompletion_request messages options in
     JS.headers plain = {[ "Content-Type" := "application/json" ]} /\
     JS.headers streamed = {[ "Content-Type" := "application/json" ]} /\
     JS.headers plain !! "Accept" = None /\
     JS.headers streamed !! "Accept" = None /\
     JS.body plain =
       {| JS.body_messages := messages; JS.body_stream := false;
          JS.body_context := JS.context options;
          JS.body_sessionState := JS.sessionState options |} /\
     JS.body streamed =
       {| JS.body_messages := messages; JS.body_stream := true;
          JS.body_context := JS.context options;
          JS.body_sessionState := JS.sessionState options |}) /\
  (forall client o,
     let request := build_request client o in
     DotNet.Headers request !! "Content-Type" = Some "application/json" /\
     DotNet.RequestContent request = Some (SerializeToJson o) /\
     (DotNet.Headers (DotNet.Request (DotNet.CreateMessage client)) !! "Accept"
        = None ->
      (DotNet.Headers request !! "Accept" = Some "application/json" <->
       DotNet.Stream o = false) /\
      (DotNet.Headers request !! "Accept" = None <-> DotNet.Stream o = true))) /\
  (forall client r ro (w w' : world) o res,
     DotNet.objects w !! r = Some o ->
     GetChatCompletionStreamingAsync client r ro w = (w', res) ->
     DotNet.sent (DotNet.trace w') =
       DotNet.sent (DotNet.trace w) ++
       [message_for client (DotNet.with_Stream true o) false ro]) /\
  (forall client r ro (w w' : world) o res,
     DotNet.objects w !! r = Some o ->
     DotNet.Stream o = false ->
     GetChatCompletionAsync client r ro w = (w', res) ->
     DotNet.sent (DotNet.trace w') =
       DotNet.sent (DotNet.trace w) ++
       [message_for client o
          (DotNet.BufferResponse (DotNet.CreateMessage client)) ro]).
Proof.
  split; [|split; [|split]].
  - intros AIChatMessage messages options. simpl. repeat split; reflexivity.
  - intros client o. cbv zeta. split; [apply build_request_content_type |].
    split; [reflexivity |]. intros Hfresh.
    rewrite (build_request_accept _ _ Hfresh).
    destruct (DotNet.Stream o); split; split; done.
  - intros client r ro w w' o res Ho Hcall.
    by destruct (GetChatCompletionStreamingAsync_sent _ _ _ _ _ _ _ Ho Hcall).
  - intros client r ro w w' o res Ho _ Hcall.
    by destruct (GetChatCompletionAsync_sent _ _ _ _ _ _ _ Ho Hcall).
Qed.

End CSharp.

(** *** The theorems at work on sample calls, and the calls that the
    unamended sentences do not cover *)

Import Samples.

(** The status pattern is not anchored: it also matches inside a longer
    string. *)
Example regex_is_not_anchored :
  JS.regex_2dd_test "1200" = true /\ JS.three_digit_2xx "1200" = false.
Proof. split; reflexivity. Qed.

(** The calls on answers that are in order. *)
Example plain_call_parses_the_body :
  (DotNet.GetChatCompletionAsync serialize parse to_completion
     (client_answering json_answer) 1 None one_caller).2 =
  DotNet.Ok {| DotNet.Value :=
                 DotNet.new_ChatCompletion
                   {| DotNet.Role := "assistant"; DotNet.Content := "{}" |}
                   "" None None;
               DotNet.RawResponse := json_answer |}.
Proof. reflexivity. Qed.

Example streaming_call_decodes_the_lines :
  (DotNet.GetChatCompletionStreamingAsync serialize parse to_delta
     (client_answering lines_answer) 1 None one_caller).2 =
  DotNet.Ok {| DotNet.StreamingRawResponse := lines_answer;
               DotNet.Enumeration :=
                 NDJSON.Run [bytes_of "{1}"; bytes_of "{2}"] NDJSON.Completed |}.
Proof. reflexivity. Qed.

(** A 404 answer, to the TypeScript client and to the C# client with the
    default error behaviour. *)
Lemma error_status_is_terminal_witness :
  JS.getCompletion (js_answering js_not_found) [] JS.no_options =
    JS.Rejected (JS.Error "Request failed with status code 404") /\
  exists w',
    DotNet.GetChatCompletionAsync serialize parse to_completion
      (client_answering not_found) 1 None one_caller =
      (w', DotNet.Throw (DotNet.ClientResultException None not_found)) /\
    DotNet.objects w' = DotNet.objects one_caller /\
    DotNet.parsed (DotNet.trace w') = DotNet.parsed (DotNet.trace one_caller).
Proof.
  destruct (error_status_is_terminal serialize parse to_completion)
    as [Hjs Hcs].
  split.
  - apply (Hjs string (js_answering js_not_found) [] JS.no_options js_not_found);
      reflexivity.
  - apply (Hcs (client_answering not_found) 1%positive None one_caller
               question not_found); reflexivity.
Defined.

(** With NoThrow the C# client answers a 404 with a completion value: the
    call does not fail. *)
Lemma NoThrow_answers_404_with_a_completion :
  DotNet.Status not_found = 404%Z /\
  DotNet.IsError not_found = true /\
  (DotNet.GetChatCompletionAsync serialize parse to_completion
     (client_answering not_found) 1 (Some no_throw) one_caller).2 =
    DotNet.Ok {| DotNet.Value := DotNet.emptyCompletion;
                 DotNet.RawResponse := not_found |}.
Proof. repeat split; reflexivity. Qed.

(** An HTML page, answered to the C# client; a 200 answer to the TypeScript
    client. *)
Lemma content_type_is_checked_witness :
  (exists w',
     DotNet.GetChatCompletionAsync serialize parse to_completion
       (client_answering html_page) 1 None one_caller =
       (w', DotNet.Throw
              (DotNet.ClientResultException
                 (Some "Content-Type does not contain application/json.")
                 html_page)) /\
     DotNet.parsed (DotNet.trace w') = DotNet.parsed (DotNet.trace one_caller)) /\
  JS.getCompletion (js_answering js_bare_ok) [] JS.no_options = JS.Fulfilled tt.
Proof.
  destruct (content_type_is_checked serialize parse to_completion)
    as [Hcs Hjs].
  split.
  - apply (Hcs (client_answering html_page) 1%positive None one_caller
               question html_page); reflexivity.
  - apply (Hjs string (js_answering js_bare_ok) [] JS.no_options js_bare_ok);
      reflexivity.
Defined.

(** The TypeScript client returns the body of a 200 response that has no
    Content-Type header at all. *)
Lemma js_returns_body_without_content_type :
  JS.response_headers js_bare_ok !! "Content-Type" = None /\
  JS.getCompletion (js_answering js_bare_ok) [] JS.no_options = JS.Fulfilled tt.
Proof. split; reflexivity. Qed.

(** The requests of the sample calls. *)
Lemma request_construction_witness :
  DotNet.sent (DotNet.trace
    (DotNet.GetChatCompletionStreamingAsync serialize parse to_delta
       (client_answering not_found) 1 None one_caller).1) =
    [DotNet.message_for serialize (client_answering not_found)
       (DotNet.with_Stream true question) false None] /\
  DotNet.sent (DotNet.trace
    (DotNet.GetChatCompletionAsync serialize parse to_completion
       (client_answering not_found) 1 None one_caller).1) =
    [DotNet.message_for serialize (client_answering not_found) question true None].
Proof.
  destruct (request_construction (ChatCompletionDelta := list byte)
              serialize parse to_completion to_delta)
    as (_ & _ & Hstreaming & Hplain).
  split.
  - apply (Hstreaming (client_answering not_found) 1%positive None one_caller
             _ question
             (DotNet.GetChatCompletionStreamingAsync serialize parse to_delta
                (client_answering not_found) 1 None one_caller).2);
      reflexivity.
  - apply (Hplain (client_answering not_found) 1%positive None one_caller
             _ question
             (DotNet.GetChatCompletionAsync serialize parse to_completion
                (client_answering not_found) 1 None one_caller).2);
      reflexivity.
Defined.

(** The request of the TypeScript getCompletion is not streaming and has no
    Accept header. *)
Lemma js_plain_request_without_accept :
  JS.body_stream (JS.body (JS.getCompletion_request
                             (AIChatMessage := string) (JsonValue := unit)
                             [] JS.no_options)) = false /\
  JS.headers (JS.getCompletion_request
                (AIChatMessage := string) (JsonValue := unit)
                [] JS.no_options) !! "Accept" = None.
Proof. split; reflexivity. Qed.

(** NoThrow and a 404 answer, for both calls. *)
Lemma NoThrow_returns_empty_witness :
  (exists w',
     DotNet.GetChatCompletionAsync serialize parse to_completion
       (client_answering not_found) 1 (Some no_throw) one_caller =
       (w', DotNet.Ok
              {| DotNet.Value :=
                   DotNet.new_ChatCompletion
                     {| DotNet.Role := ""; DotNet.Content := "" |} "" None None;
                 DotNet.RawResponse := not_found |})) /\
  (exists w',
     DotNet.GetChatCompletionStreamingAsync serialize parse to_delta
       (client_answering not_found) 1 (Some no_throw) one_caller =
       (w', DotNet.Ok
              {| DotNet.StreamingRawResponse := not_found;
                 DotNet.Enumeration := NDJSON.Run [] NDJSON.Completed |})).
Proof.
  destruct (NoThrow_returns_empty (ChatCompletionDelta := list byte)
              serialize parse to_completion to_delta
              (client_answering not_found) 1%positive no_throw one_caller
              question not_found eq_refl eq_refl eq_refl) as [Hplain Hstreaming].
  split; [apply Hplain | apply Hstreaming]; reflexivity.
Defined.

(** A streaming call, then a non-streaming call with the same options
    object: the second request says stream:true and has no Accept header. *)
Lemma Stream_flag_persists_witness :
  let w1 := (DotNet.GetChatCompletionStreamingAsync serialize parse to_delta
               (client_answering not_found) 1 None one_caller).1 in
  let w2 := (DotNet.GetChatCompletionAsync serialize parse to_completion
               (client_answering not_found) 1 None w1).1 in
  DotNet.Stream (DotNet.with_Stream true question) = true /\
  DotNet.objects w1 !! 1%positive = Some (DotNet.with_Stream true question) /\
  DotNet.objects w2 !! 1%positive = Some (DotNet.with_Stream true question) /\
  exists message,
    DotNet.sent (DotNet.trace w2) = DotNet.sent (DotNet.trace w1) ++ [message] /\
    DotNet.RequestContent (DotNet.Request message) = Some "stream:true" /\
    DotNet.Headers (DotNet.Request message) !! "Accept" = None.
Proof.
  intros w1 w2.
  apply (Stream_flag_persists (ChatCompletionDelta := list byte)
           serialize parse to_completion to_delta
           (client_answering not_found) 1%positive None None one_caller w1 w2
           question
           (DotNet.GetChatCompletionStreamingAsync serialize parse to_delta
              (client_answering not_found) 1 None one_caller).2
           (DotNet.GetChatCompletionAsync serialize parse to_completion
              (client_answering not_found) 1 None w1).2);
    reflexivity.
Defined.

End ClientProps.

(** * Further properties of the clients' code *)

Module CodeProps.

(** ** Strings *)

Lemma append_cons (x : Ascii.ascii) (a b : string) :
  String x a +:+ b = String x (a +:+ b).
Proof. reflexivity. Qed.

Lemma append_nil_l (a : string) : "" +:+ a = a.
Proof. reflexivity. Qed.

Lemma append_assoc (a b c : string) : (a +:+ b) +:+ c = a +:+ b +:+ c.
Proof.
  induction a as [|x a IH]; [done |]. by rewrite !append_cons, IH.
Qed.

Lemma append_nil_r (a : string) : a +:+ "" = a.
Proof.
  induction a as [|x a IH]; [done |]. by rewrite append_cons, IH.
Qed.

Lemma prefix_append (sub t : string) : String.prefix sub (sub +:+ t) = true.
Proof.
  induction sub as [|x sub IH]; [by destruct t |].
  rewrite append_cons. simpl. by destruct (Ascii.ascii_dec x x).
Qed.

Lemma prefix_inv (sub s : string) :
  String.prefix sub s = true -> exists t, s = sub +:+ t.
Proof.
  revert s. induction sub as [|x sub IH]; intros s.
  - intros _. by exists s.
  - destruct s as [|y s]; simpl; [done |].
    destruct (Ascii.ascii_dec x y) as [->|]; [|done].
    intros [t ->]%IH. exists t. by rewrite append_cons.
Qed.

Lemma Contains_unfold (s sub : string) :
  DotNet.Contains s sub =
    String.prefix sub s ||
    match s with
    | EmptyString => false
    | String _ rest => DotNet.Contains rest sub
    end.
Proof. by destruct s. Qed.

Lemma Contains_append (pre s sub : string) :
  DotNet.Contains s sub = true -> DotNet.Contains (pre +:+ s) sub = true.
Proof.
  intros H. induction pre as [|x pre IH]; [done |].
  rewrite append_cons, Contains_unfold, IH. apply orb_true_r.
Qed.

Lemma Contains_middle (pre sub post : string) :
  DotNet.Contains (pre +:+ sub +:+ post) sub = true.
Proof.
  apply Contains_append. rewrite Contains_unfold, prefix_append. done.
Qed.

Lemma Contains_inv (s sub : string) :
  DotNet.Contains s sub = true -> exists pre post, s = pre +:+ sub +:+ post.
Proof.
  induction s as [|x s IH]; rewrite Contains_unfold.
  - rewrite orb_false_r. intros [t ->]%prefix_inv. by exists "", t.
  - intros [[t Ht]%prefix_inv | (pre & post & ->)%IH]%orb_true_iff.
    + by exists "", t.
    + exists (String x pre), post. by rewrite append_cons.
Qed.

(** ** The TypeScript client *)

(** X1. The status test of both methods accepts exactly the strings in which
    the character 2 is followed by two ASCII digits somewhere: the pattern is
    not anchored, so a status longer than three characters is accepted when it
    contains such a run. *)
Theorem status_test_finds_a_run (s : string) :
  JS.regex_2dd_test s = true <->
  exists pre d1 d2 post,
    s = pre +:+ String "2" (String d1 (String d2 post)) /\
    JS.is_digit d1 = true /\ JS.is_digit d2 = true.
Proof.
  induction s as [|c s IH].
  - split; [done |]. intros (pre & d1 & d2 & post & H & _). by destruct pre.
  - simpl. rewrite orb_true_iff, IH. split.
    + intros [H | (pre & d1 & d2 & post & -> & Hd)].
      * apply andb_true_iff in H as [Hc H]. apply Ascii.eqb_eq in Hc as ->.
        destruct s as [|d1 [|d2 post]]; try done.
        apply andb_true_iff in H. by exists "", d1, d2, post.
      * exists (String c pre), d1, d2, post. by rewrite append_cons.
    + intros (pre & d1 & d2 & post & H & Hd1 & Hd2).
      destruct pre as [|x pre];
        rewrite ?append_cons, ?append_nil_l in H; injection H as -> ->.
      * left. by rewrite Hd1, Hd2.
      * right. by exists pre, d1, d2, post.
Qed.

(** X2. getStreamedCompletion: when the runtime rejects, the call rejects
    with the same error; when it answers with a three-character status, the
    call rejects with "Request failed with status code <status>" unless the
    status is a 2xx code, and only then is the body handed to the decoder. *)
Theorem streamed_status_check {AIChatMessage JsonValue Delta : Type}
    (post_asStream : JS.RequestParameters AIChatMessage JsonValue ->
                     JS.AIChatCompletionOptions JsonValue ->
                     JS.promise (JS.HttpResponse (list (list byte))))
    (decode : list byte -> option Delta) messages options :
  (forall e,
     post_asStream (JS.getStreamedCompletion_request messages options) options
       = JS.Rejected e ->
     JS.getStreamedCompletion post_asStream decode messages options =
       JS.Rejected e) /\
  (forall response,
     post_asStream (JS.getStreamedCompletion_request messages options) options
       = JS.Fulfilled response ->
     String.length (JS.status response) = 3 ->
     JS.getStreamedCompletion post_asStream decode messages options =
       if JS.three_digit_2xx (JS.status response)
       then JS.Fulfilled (NDJSON.getAsyncIterable decode
                            (JS.response_body response))
       else JS.Rejected (JS.Error ("Request failed with status code " +:+
                                   JS.status response))).
Proof.
  unfold JS.getStreamedCompletion. split.
  - by intros e ->.
  - intros response -> Hlen.
    rewrite (ClientProps.regex_2dd_test_three _ Hlen).
    by destruct (JS.three_digit_2xx _).
Qed.

Section Credentials.
Local Set Warnings "-clear-no-such-hyp".
Variable primitive_read : JS.js_value -> nat -> string -> option JS.js_value.
Variable converted_greater_than_zero : JS.js_value -> option bool.

Local Abbreviation get := (JS.get primitive_read).
Local Abbreviation greater_than_zero :=
  (JS.greater_than_zero converted_greater_than_zero).
Local Abbreviation isTokenCredential :=
  (JS.isTokenCredential primitive_read converted_greater_than_zero).

Lemma typeof_function_dec (v : JS.js_value) :
  {JS.typeof v = "function"} + {JS.typeof v <> "function"}.
Proof. apply String.string_dec. Qed.

Lemma is_undefined_spec (v : JS.js_value) :
  JS.is_undefined v = true <-> v = JS.js_undefined.
Proof. by destruct v. Qed.

(** The credential test, read by read. *)
Lemma isTokenCredential_falsy v :
  JS.truthy v = false -> isTokenCredential v = Some false.
Proof. unfold JS.isTokenCredential. by intros ->. Qed.

Lemma isTokenCredential_first_read v :
  JS.truthy v = true ->
  isTokenCredential v =
    match get v 0 "getToken" with
    | None => None
    | Some getToken =>
        if negb (String.eqb (JS.typeof getToken) "function") then Some false
        else
          match get v 1 "signRequest" with
          | None => None
          | Some signRequest =>
              if JS.is_undefined signRequest then Some true
              else
                match get v 2 "getToken" with
                | None => None
                | Some getToken' =>
                    match get getToken' 3 "length" with
                    | None => None
                    | Some len => greater_than_zero len
                    end
                end
          end
    end.
Proof.
  unfold JS.isTokenCredential. intros ->. simpl.
  destruct (get v 0 "getToken") as [g|]; simpl; [|done].
  destruct (negb _); [done |].
  destruct (get v 1 "signRequest") as [s|]; simpl; [|done].
  destruct (JS.is_undefined s); [done |].
  destruct (get v 2 "getToken") as [g'|]; simpl; [|done].
  by destruct (get g' 3 "length").
Qed.

Lemma isTokenCredential_not_function v getToken :
  JS.truthy v = true ->
  get v 0 "getToken" = Some getToken ->
  JS.typeof getToken <> "function" ->
  isTokenCredential v = Some false.
Proof.
  intros Hv Hget Htype. rewrite (isTokenCredential_first_read _ Hv), Hget.
  apply String.eqb_neq in Htype. by rewrite Htype.
Qed.

Lemma isTokenCredential_unsigned v getToken :
  JS.truthy v = true ->
  get v 0 "getToken" = Some getToken ->
  JS.typeof getToken = "function" ->
  get v 1 "signRequest" = Some JS.js_undefined ->
  isTokenCredential v = Some true.
Proof.
  intros Hv Hget Htype Hsign.
  rewrite (isTokenCredential_first_read _ Hv), Hget, Hsign.
  apply String.eqb_eq in Htype. by rewrite Htype.
Qed.

(** X3. isTokenCredential answers false for a falsy value, such as an omitted
    argument, without reading any member. For a truthy value it answers true
    exactly when getToken reads as a function and either signRequest reads as
    undefined or the length of getToken, read a second time, is greater than
    0 (Function.length: the parameters before the first default or rest
    parameter). It throws exactly when one of the reads it gets to throws, as
    on a revoked proxy or a throwing getter, or when the comparison does. *)
Theorem token_credential_test (v : JS.js_value) :
  (JS.truthy v = false -> isTokenCredential v = Some false) /\
  (isTokenCredential v = Some true <->
   JS.truthy v = true /\
   exists getToken signRequest,
     get v 0 "getToken" = Some getToken /\
     JS.typeof getToken = "function" /\
     get v 1 "signRequest" = Some signRequest /\
     (signRequest = JS.js_undefined \/
      exists getToken' len,
        get v 2 "getToken" = Some getToken' /\
        get getToken' 3 "length" = Some len /\
        greater_than_zero len = Some true)) /\
  (isTokenCredential v = None <->
   JS.truthy v = true /\
   (get v 0 "getToken" = None \/
    exists getToken,
      get v 0 "getToken" = Some getToken /\
      JS.typeof getToken = "function" /\
      (get v 1 "signRequest" = None \/
       exists signRequest,
         get v 1 "signRequest" = Some signRequest /\
         signRequest <> JS.js_undefined /\
         (get v 2 "getToken" = None \/
          exists getToken',
            get v 2 "getToken" = Some getToken' /\
            (get getToken' 3 "length" = None \/
             exists len,
               get getToken' 3 "length" = Some len /\
               greater_than_zero len = None))))).
Proof.
  split; [apply isTokenCredential_falsy |].
  destruct (JS.truthy v) eqn:Hv;
    [|rewrite (isTokenCredential_falsy _ Hv); split; split; naive_solver].
  rewrite (isTokenCredential_first_read _ Hv).
  destruct (get v 0 "getToken") as [g|]; [|split; split; naive_solver].
  destruct (typeof_function_dec g) as [Hg|Hg].
  2:{ apply String.eqb_neq in Hg as Hg'. rewrite Hg'. cbn [negb].
      split; split; naive_solver. }
  apply String.eqb_eq in Hg as Hg'. rewrite Hg'. cbn [negb].
  destruct (get v 1 "signRequest") as [s|]; [|split; split; naive_solver].
  destruct (JS.is_undefined s) eqn:Hs.
  { apply is_undefined_spec in Hs as ->. split; split; naive_solver. }
  assert (s <> JS.js_undefined) as Hs'
    by (intros H; apply is_undefined_spec in H; congruence).
  destruct (get v 2 "getToken") as [g'|]; [|split; split; naive_solver].
  destruct (get g' 3 "length") as [len|] eqn:Hlen.
  - split; split; [eauto 20 | naive_solver | | naive_solver].
    intros Hnone. split; [done |]. right. exists g. do 2 (split; [done |]).
    right. exists s. do 2 (split; [done |]). right. exists g'.
    split; [done |]. right. by exists len.
  - split; split; [done | naive_solver | | done].
    intros _. split; [done |]. right. exists g. do 2 (split; [done |]).
    right. exists s. do 2 (split; [done |]). right. exists g'.
    split; [done |]. by left.
Qed.

(** X4. The constructor tells credentials from options as follows. When its
    second argument is falsy, as an omitted one is, or has a getToken that is
    not a function, as an options object has, and the runtime does not take
    it for a key credential, the outcome is that of getClient(endpoint, arg1):
    the third argument is ignored. When getToken is a function and
    signRequest reads as undefined, the outcome is that of
    getClient(endpoint, arg1, arg2), and isKeyCredential is not consulted.
    When the read of getToken throws, the constructor throws. *)
Theorem constructor_dispatch {Client : Type}
    (isKeyCredential : JS.js_value -> option bool)
    (getClient : string -> JS.js_value -> JS.js_value -> option Client)
    (endpoint : string) (arg1 arg2 : JS.js_value) :
  let constructed :=
    JS.new_AIChatProtocolClient primitive_read converted_greater_than_zero
      isKeyCredential getClient endpoint arg1 arg2 in
  ((JS.truthy arg1 = false \/
    exists getToken,
      JS.truthy arg1 = true /\ get arg1 0 "getToken" = Some getToken /\
      JS.typeof getToken <> "function") ->
   isKeyCredential arg1 = Some false ->
   constructed = getClient endpoint arg1 JS.js_undefined) /\
  (forall getToken,
     JS.truthy arg1 = true ->
     get arg1 0 "getToken" = Some getToken ->
     JS.typeof getToken = "function" ->
     get arg1 1 "signRequest" = Some JS.js_undefined ->
     constructed = getClient endpoint arg1 arg2) /\
  (JS.truthy arg1 = true -> get arg1 0 "getToken" = None ->
   constructed = None).
Proof.
  intros constructed. subst constructed.
  unfold JS.new_AIChatProtocolClient, JS.isCredential. split; [|split].
  - intros Hno Hkey.
    assert (isTokenCredential arg1 = Some false) as ->.
    { destruct Hno as [Hfalsy | (g & Hv & Hget & Htype)].
      - by apply isTokenCredential_falsy.
      - by eapply isTokenCredential_not_function. }
    simpl. by rewrite Hkey.
  - intros g Hv Hget Htype Hsign.
    by rewrite (isTokenCredential_unsigned _ _ Hv Hget Htype Hsign).
  - intros Hv Hget.
    by rewrite (isTokenCredential_first_read _ Hv), Hget.
Qed.

End Credentials.

(** ** The C# client *)

Lemma logged_snoc (tr : list DotNet.event) e :
  DotNet.logged (tr ++ [e]) =
    DotNet.logged tr ++ (if DotNet.is_log e then [e] else []).
Proof. unfold DotNet.logged. rewrite List.filter_app. simpl. by destruct e. Qed.

Ltac events_simpl :=
  simpl;
  repeat (rewrite ?ClientProps.sent_snoc, ?ClientProps.parsed_snoc,
            ?logged_snoc; simpl);
  rewrite ?app_nil_r.

Section CSharp.
Context {JsonValue JsonElement ChatCompletionDelta : Type}.

Local Abbreviation ChatCompletionOptions := (DotNet.ChatCompletionOptions JsonValue).
Local Abbreviation ChatCompletion := (DotNet.ChatCompletion JsonValue).
Local Abbreviation world := (DotNet.world JsonValue).

Variable SerializeToJson : ChatCompletionOptions -> string.
Variable JsonDocument_Parse : list byte -> option JsonElement.
Variable DeserializeChatCompletion : JsonElement -> option ChatCompletion.
Variable DeserializeStreamingChatUpdate : JsonElement -> option ChatCompletionDelta.

Local Abbreviation build_request := (DotNet.build_request SerializeToJson).
Local Abbreviation message_for := (DotNet.message_for SerializeToJson).
Local Abbreviation GetChatCompletionAsync :=
  (DotNet.GetChatCompletionAsync SerializeToJson
     JsonDocument_Parse DeserializeChatCompletion).
Local Abbreviation GetChatCompletionStreamingAsync :=
  (DotNet.GetChatCompletionStreamingAsync SerializeToJson JsonDocument_Parse
     DeserializeStreamingChatUpdate).

(** The message of the non-streaming call. *)
Local Abbreviation plain_message client o ro :=
  (message_for client o (DotNet.BufferResponse (DotNet.CreateMessage client)) ro).

Ltac cases :=
  repeat (simpl;
    match goal with
    | |- context [DotNet.logger ?c] => destruct (DotNet.logger c) as [?|]
    | |- context [DotNet.IsEnabled_Information ?l] =>
        destruct (DotNet.IsEnabled_Information l)
    | |- context [DotNet.IsError ?x] => destruct (DotNet.IsError x)
    | |- context [DotNet.is_NoThrow ?x] => destruct (DotNet.is_NoThrow x)
    | |- context [DotNet.ResponseHeaders ?x !! ?k] =>
        destruct (DotNet.ResponseHeaders x !! k)
    | |- context [DotNet.Contains ?a ?b] => destruct (DotNet.Contains a b)
    | |- context [JsonDocument_Parse ?x] => destruct (JsonDocument_Parse x)
    | |- context [DeserializeChatCompletion ?x] =>
        destruct (DeserializeChatCompletion x)
    end); simpl.

(** X5. The request that CreatePipelineMessage fills in is a POST to the
    client's endpoint. Its User-Agent is the one the pipeline's fresh message
    already has, and the SDK's own name and version only when there is none.
    Every header of the fresh message other than User-Agent, Content-Type and
    Accept is left as it was. *)
Theorem request_headers_frame client (o : ChatCompletionOptions) :
  let fresh := DotNet.Headers (DotNet.Request (DotNet.CreateMessage client)) in
  let request := build_request client o in
  DotNet.Method request = "POST" /\
  DotNet.Uri request = DotNet.endpoint client /\
  DotNet.Headers request !! "User-Agent" =
    Some (default "sdk-csharp-microsoft-ai-chatprotocol/1.0.0-beta.1"
                  (fresh !! "User-Agent")) /\
  (forall name,
     name <> "User-Agent" -> name <> "Content-Type" -> name <> "Accept" ->
     DotNet.Headers request !! name = fresh !! name).
Proof.
  intros fresh request. split; [done |]. split; [done |].
  subst request. unfold DotNet.build_request. simpl. fold fresh. split.
  - destruct (DotNet.Stream o); simpl; rewrite ?lookup_insert_ne by done;
      destruct (fresh !! "User-Agent") eqn:E; simpl;
      by rewrite ?lookup_insert_eq.
  - intros name H1 H2 H3.
    destruct (DotNet.Stream o); simpl; rewrite ?lookup_insert_ne by done;
      destruct (fresh !! "User-Agent"); by rewrite ?lookup_insert_ne.
Qed.

(** X6. With a null options reference neither call gets as far as the
    pipeline: both throw NullReferenceException, and nothing is sent, logged
    or changed. *)
Theorem null_options_throw client r ro (w : world) :
  DotNet.objects w !! r = None ->
  GetChatCompletionAsync client r ro w =
    (w, DotNet.Throw DotNet.NullReferenceException) /\
  GetChatCompletionStreamingAsync client r ro w =
    (w, DotNet.Throw DotNet.NullReferenceException).
Proof.
  intros Hnull. split; ClientProps.run_call; by rewrite Hnull.
Qed.

(** X7. An exception of the pipeline reaches the caller unchanged and nothing
    is parsed. After the non-streaming call the options are as before; after
    the streaming call their Stream flag is set all the same. *)
Theorem transport_failure_propagates client r ro (w : world) o e :
  DotNet.objects w !! r = Some o ->
  (DotNet.SendAsync client (plain_message client o ro) = DotNet.Throw e ->
   exists w',
     GetChatCompletionAsync client r ro w = (w', DotNet.Throw e) /\
     DotNet.objects w' = DotNet.objects w /\
     DotNet.parsed (DotNet.trace w') = DotNet.parsed (DotNet.trace w)) /\
  (DotNet.SendAsync client
     (message_for client (DotNet.with_Stream true o) false ro) = DotNet.Throw e ->
   exists w',
     GetChatCompletionStreamingAsync client r ro w = (w', DotNet.Throw e) /\
     DotNet.objects w' = <[r := DotNet.with_Stream true o]> (DotNet.objects w) /\
     DotNet.parsed (DotNet.trace w') = DotNet.parsed (DotNet.trace w)).
Proof.
  intros Ho. unfold DotNet.message_for. split; intros Hsend;
    ClientProps.run_call; rewrite Ho; simpl; rewrite ?lookup_insert_eq;
    destruct (DotNet.logger client); simpl; rewrite Hsend;
    eexists; (split; [reflexivity |]); split; try reflexivity;
    by events_simpl.
Qed.

(** X8. GetChatCompletionAsync parses at most one document, the content of
    the response, and parses it exactly when the pipeline has delivered a
    response that is not classified as an error and whose Content-Type
    contains application/json. *)
Theorem body_parsed_only_after_checks client r ro (w w' : world) o res :
  DotNet.objects w !! r = Some o ->
  GetChatCompletionAsync client r ro w = (w', res) ->
  DotNet.parsed (DotNet.trace w') =
    DotNet.parsed (DotNet.trace w) ++
    match DotNet.SendAsync client (plain_message client o ro) with
    | DotNet.Ok response =>
        if negb (DotNet.IsError response) && DotNet.accepts_json response
        then [DotNet.ResponseContent response]
        else []
    | DotNet.Throw _ => []
    end.
Proof.
  intros Ho. unfold DotNet.message_for, DotNet.accepts_json.
  ClientProps.run_call. rewrite Ho. simpl.
  destruct (DotNet.logger client) as [l|]; simpl;
    destruct (DotNet.SendAsync client _) as [response|e]; simpl;
    cases; intros [= <- <-]; by events_simpl.
Qed.

(** X9. When the response is not classified as an error, its Content-Type
    contains application/json, its content parses and the document
    deserializes, GetChatCompletionAsync returns the deserialized completion
    together with the response, and leaves the caller's options as they
    were. *)
Theorem completion_read_from_body client r ro (w : world) o response
    document completion :
  DotNet.objects w !! r = Some o ->
  DotNet.SendAsync client (plain_message client o ro) = DotNet.Ok response ->
  DotNet.IsError response = false ->
  DotNet.accepts_json response = true ->
  JsonDocument_Parse (DotNet.ResponseContent response) = Some document ->
  DeserializeChatCompletion document = Some completion ->
  exists w',
    GetChatCompletionAsync client r ro w =
      (w', DotNet.Ok {| DotNet.Value := completion;
                        DotNet.RawResponse := response |}) /\
    DotNet.objects w' = DotNet.objects w.
Proof.
  intros Ho Hsend Hok Hjson Hparse Hdes.
  unfold DotNet.message_for in Hsend. unfold DotNet.accepts_json in Hjson.
  ClientProps.run_call. rewrite Ho. simpl.
  destruct (DotNet.logger client) as [l|]; simpl; rewrite Hsend; simpl;
    try destruct (DotNet.IsEnabled_Information l); simpl; rewrite Hok;
    destruct (DotNet.ResponseHeaders response !! "Content-Type");
    try done; rewrite Hjson; simpl; rewrite Hparse, Hdes;
    eexists; split; reflexivity.
Qed.

(** X10. The Content-Type test of GetChatCompletionAsync is a substring test:
    for a response that is not classified as an error and has a Content-Type,
    the call throws "Content-Type does not contain application/json." exactly
    when the header value has no occurrence of application/json; a value such
    as application/jsonl passes. *)
Theorem content_type_test_is_substring client r ro (w : world) o response
    contentType :
  DotNet.objects w !! r = Some o ->
  DotNet.SendAsync client (plain_message client o ro) = DotNet.Ok response ->
  DotNet.IsError response = false ->
  DotNet.ResponseHeaders response !! "Content-Type" = Some contentType ->
  (GetChatCompletionAsync client r ro w).2 =
     DotNet.Throw (DotNet.ClientResultException
                     (Some "Content-Type does not contain application/json.")
                     response) <->
  ~ exists pre post, contentType = pre +:+ "application/json" +:+ post.
Proof.
  intros Ho Hsend Hok Hct. unfold DotNet.message_for in Hsend.
  assert (DotNet.Contains contentType "application/json" = false <->
          ~ exists pre post, contentType = pre +:+ "application/json" +:+ post)
    as <-.
  { destruct (DotNet.Contains contentType "application/json") eqn:E.
    - split; [done |]. intros H. destruct H. by apply Contains_inv.
    - split; [|done]. intros _ (pre & post & ->).
      by rewrite Contains_middle in E. }
  ClientProps.run_call. rewrite Ho. simpl.
  destruct (DotNet.logger client) as [l|]; simpl; rewrite Hsend; simpl;
    try destruct (DotNet.IsEnabled_Information l); simpl; rewrite Hok, Hct;
    destruct (DotNet.Contains contentType "application/json"); simpl;
    cases; split; done.
Qed.

(** X11. GetChatCompletionStreamingAsync does not look at the Content-Type of
    the response: for every response that is not classified as an error it
    returns the streaming result over the response's content stream, having
    parsed nothing itself. *)
Theorem streaming_skips_content_type client r ro (w : world) o response :
  DotNet.objects w !! r = Some o ->
  DotNet.SendAsync client
    (message_for client (DotNet.with_Stream true o) false ro)
    = DotNet.Ok response ->
  DotNet.IsError response = false ->
  exists w',
    GetChatCompletionStreamingAsync client r ro w =
      (w', DotNet.Ok
             {| DotNet.StreamingRawResponse := response;
                DotNet.Enumeration :=
                  DotNet.EnumerateFromStream JsonDocument_Parse
                    (DotNet.ContentStream response)
                    DeserializeStreamingChatUpdate |}) /\
    DotNet.parsed (DotNet.trace w') = DotNet.parsed (DotNet.trace w).
Proof.
  intros Ho Hsend Hok. unfold DotNet.message_for in Hsend.
  ClientProps.run_call. rewrite Ho. simpl. rewrite lookup_insert_eq.
  destruct (DotNet.logger client) as [l|]; simpl; rewrite Hsend; simpl;
    try destruct (DotNet.IsEnabled_Information l); simpl; rewrite Hok;
    eexists; (split; [reflexivity |]); by events_simpl.
Qed.

(** X12. When the response is classified as an error and the error behaviour
    is not NoThrow, GetChatCompletionStreamingAsync throws a
    ClientResultException carrying the response; no enumeration is created,
    nothing is parsed, and the Stream flag of the caller's options stays
    set. *)
Theorem streaming_error_throws client r ro (w : world) o response :
  DotNet.objects w !! r = Some o ->
  DotNet.SendAsync client
    (message_for client (DotNet.with_Stream true o) false ro)
    = DotNet.Ok response ->
  DotNet.IsError response = true ->
  DotNet.is_NoThrow
    (DotNet.ErrorOptions (default DotNet.new_RequestOptions ro)) = false ->
  exists w',
    GetChatCompletionStreamingAsync client r ro w =
      (w', DotNet.Throw (DotNet.ClientResultException None response)) /\
    DotNet.objects w' !! r = Some (DotNet.with_Stream true o) /\
    DotNet.parsed (DotNet.trace w') = DotNet.parsed (DotNet.trace w).
Proof.
  intros Ho Hsend Herr Hthrow. unfold DotNet.message_for in Hsend.
  ClientProps.run_call. rewrite Ho. simpl. rewrite lookup_insert_eq.
  destruct (DotNet.logger client) as [l|]; simpl; rewrite Hsend; simpl;
    try destruct (DotNet.IsEnabled_Information l); simpl;
    rewrite Herr, Hthrow; eexists; (split; [reflexivity |]); simpl;
    rewrite lookup_insert_eq; (split; [done | by events_simpl]).
Qed.

Lemma plain_call_quiet client r ro (w : world) :
  DotNet.logger client = None ->
  DotNet.logged (DotNet.trace (GetChatCompletionAsync client r ro w).1) =
    DotNet.logged (DotNet.trace w).
Proof.
  intros Hnone. ClientProps.run_call. rewrite Hnone.
  destruct (DotNet.objects w !! r) as [o|]; simpl; [|done].
  destruct (DotNet.SendAsync client _) as [response|e]; simpl;
    cases; by events_simpl.
Qed.

Lemma streaming_call_quiet client r ro (w : world) :
  DotNet.logger client = None ->
  DotNet.logged (DotNet.trace (GetChatCompletionStreamingAsync client r ro w).1) =
    DotNet.logged (DotNet.trace w).
Proof.
  intros Hnone. ClientProps.run_call. rewrite Hnone.
  destruct (DotNet.objects w !! r) as [o|]; simpl; [|done].
  rewrite lookup_insert_eq.
  destruct (DotNet.SendAsync client _) as [response|e]; simpl;
    cases; by events_simpl.
Qed.

(** X13. A client without a logger logs nothing, in either call and however
    the call ends. *)
Theorem no_logger_no_logs client r ro (w : world) :
  DotNet.logger client = None ->
  DotNet.logged (DotNet.trace (GetChatCompletionAsync client r ro w).1) =
    DotNet.logged (DotNet.trace w) /\
  DotNet.logged (DotNet.trace (GetChatCompletionStreamingAsync client r ro w).1) =
    DotNet.logged (DotNet.trace w).
Proof.
  intros Hnone. split; [by apply plain_call_quiet | by apply streaming_call_quiet].
Qed.

(** X14. What GetChatCompletionAsync logs on a client with a logger: first
    the request with its JSON body, before the message is sent and at every
    log level; then the response, only if the logger is enabled for the
    Information level; then the response body, only if the response passed
    the error and Content-Type checks. *)
Theorem plain_call_logs client r ro (w w' : world) o res l :
  DotNet.logger client = Some l ->
  DotNet.objects w !! r = Some o ->
  GetChatCompletionAsync client r ro w = (w', res) ->
  (exists rest,
     DotNet.trace w' =
       DotNet.trace w ++
       DotNet.LogHttpRequest (build_request client o) (SerializeToJson o) ::
       DotNet.Sent (plain_message client o ro) :: rest) /\
  DotNet.logged (DotNet.trace w') =
    DotNet.logged (DotNet.trace w) ++
    DotNet.LogHttpRequest (build_request client o) (SerializeToJson o) ::
    match DotNet.SendAsync client (plain_message client o ro) with
    | DotNet.Ok response =>
        (if DotNet.IsEnabled_Information l
         then [DotNet.LogHttpResponse response] else []) ++
        (if negb (DotNet.IsError response) && DotNet.accepts_json response
         then [DotNet.LogHttpResponseBody (DotNet.ResponseContent response)]
         else [])
    | DotNet.Throw _ => []
    end.
Proof.
  intros Hl Ho. unfold DotNet.message_for, DotNet.accepts_json.
  ClientProps.run_call. rewrite Hl, Ho. simpl.
  destruct (DotNet.SendAsync client _) as [response|e]; simpl;
    cases; intros [= <- <-]; simpl;
    (split; [rewrite <- ?app_assoc; simpl; eauto
            | events_simpl; by rewrite <- ?app_assoc]).
Qed.

(** X15. The constructor creates the pipeline from the client options, the
    given ones or the default ones, with the bearer policy of the credential
    as its only policy, and with no policy at all when no credential is
    given. The client has a logger only if the options have a logger factory:
    without one, no call of the constructed client logs anything. *)
Theorem constructed_client
    (ClientPipeline_Create :
       DotNet.ChatProtocolClientOptions -> list DotNet.PipelinePolicy ->
       list DotNet.PipelinePolicy -> list DotNet.PipelinePolicy ->
       DotNet.ClientPipeline)
    (new_ChatProtocolClientOptions : DotNet.ChatProtocolClientOptions)
    endpoint credentials options :
  let client :=
    DotNet.new_ChatProtocolClient ClientPipeline_Create
      new_ChatProtocolClientOptions endpoint credentials options in
  let clientOptions := default new_ChatProtocolClientOptions options in
  let pipeline :=
    ClientPipeline_Create clientOptions []
      (match credentials with
       | Some credential => [DotNet.BearerAuthorizationPolicy credential]
       | None => []
       end) [] in
  DotNet.endpoint client = endpoint /\
  DotNet.CreateMessage client = DotNet.pipeline_CreateMessage pipeline /\
  DotNet.SendAsync client = DotNet.pipeline_SendAsync pipeline /\
  (DotNet.LoggerFactory clientOptions = None ->
   forall r ro (w : world),
     DotNet.logged (DotNet.trace (GetChatCompletionAsync client r ro w).1) =
       DotNet.logged (DotNet.trace w) /\
     DotNet.logged
       (DotNet.trace (GetChatCompletionStreamingAsync client r ro w).1) =
       DotNet.logged (DotNet.trace w)).
Proof.
  intros client clientOptions pipeline. repeat split; try reflexivity.
  - apply plain_call_quiet. subst client. unfold DotNet.new_ChatProtocolClient.
    simpl. fold clientOptions. by rewrite H.
  - apply streaming_call_quiet. subst client.
    unfold DotNet.new_ChatProtocolClient. simpl. fold clientOptions.
    by rewrite H.
Qed.

End CSharp.

(** *** The rendering of a response for the log *)

Local Abbreviation lines_of headers :=
  (foldr (fun header acc => DotNet.header_line header +:+ acc) "" headers).

Lemma foldl_header_lines (init : string) headers :
  foldl (fun acc header => acc +:+ DotNet.header_line header) init headers =
    init +:+ lines_of headers.
Proof.
  revert init. induction headers as [|h headers IH]; intros init;
    cbn [foldl foldr].
  - by rewrite append_nil_r.
  - by rewrite IH, append_assoc.
Qed.

Lemma Contains_append_r (s t sub : string) :
  DotNet.Contains s sub = true -> DotNet.Contains (s +:+ t) sub = true.
Proof.
  intros (pre & post & ->)%Contains_inv.
  rewrite !append_assoc. apply Contains_middle.
Qed.

Lemma lines_of_Contains header headers :
  header ∈ headers ->
  DotNet.Contains (lines_of headers) (DotNet.header_line header) = true.
Proof.
  induction 1 as [h headers | h h' headers _ IH]; cbn [foldr].
  - exact (Contains_middle "" (DotNet.header_line h) (lines_of headers)).
  - by apply Contains_append.
Qed.

(** X16. HttpResponseToString renders the reason phrase and the status in
    decimal, then one line per header between braces: the loop's result is the
    opening text, the header lines in the order of enumeration, and the
    closing text. Every header of the response has its line "key: value" in
    the rendering. *)
Theorem rendering_shows_every_header (response : DotNet.PipelineResponse) :
  DotNet.HttpResponseToString response =
    ("Status = " +:+ DotNet.ReasonPhrase response +:+ " (" +:+
     pretty (DotNet.Status response) +:+ "), Headers:" +:+
     DotNet.newline +:+ DotNet.tab +:+ "  {") +:+
    lines_of (map_to_list (DotNet.ResponseHeaders response)) +:+
    DotNet.newline +:+ DotNet.tab +:+ "  }" /\
  (forall key value,
     DotNet.ResponseHeaders response !! key = Some value ->
     DotNet.Contains (DotNet.HttpResponseToString response)
       (DotNet.header_line (key, value)) = true).
Proof.
  assert (DotNet.HttpResponseToString response =
    ("Status = " +:+ DotNet.ReasonPhrase response +:+ " (" +:+
     pretty (DotNet.Status response) +:+ "), Headers:" +:+
     DotNet.newline +:+ DotNet.tab +:+ "  {") +:+
    lines_of (map_to_list (DotNet.ResponseHeaders response)) +:+
    DotNet.newline +:+ DotNet.tab +:+ "  }") as Hshape.
  { unfold DotNet.HttpResponseToString, DotNet.HttpResponseToString_of.
    cbv zeta. by rewrite foldl_header_lines, append_assoc. }
  split; [done |]. intros key value Hlookup. rewrite Hshape.
  apply Contains_append, Contains_append_r, lines_of_Contains.
  by apply elem_of_map_to_list.
Qed.

(** *** The properties at work on sample calls *)

Import Samples.

Example rendering_of_a_page :
  DotNet.HttpResponseToString html_page =
    "Status = OK (200), Headers:" +:+ DotNet.newline +:+ DotNet.tab +:+ "  {" +:+
    DotNet.newline +:+ DotNet.tab +:+ DotNet.tab +:+ "Content-Type: text/html" +:+
    DotNet.newline +:+ DotNet.tab +:+ "  }".
Proof. reflexivity. Qed.

Lemma status_test_finds_a_run_witness :
  JS.regex_2dd_test "1200" = true.
Proof.
  apply (proj2 (status_test_finds_a_run "1200")).
  exists "1", "0"%char, "0"%char, "". repeat split; reflexivity.
Defined.

(** The credential test on a function of length 0 beside a signRequest, and
    on a getter that changes its answer between the two reads. *)
Example credential_test_edge_cases :
  JS.isTokenCredential builtin_read never_greater defaulted_credential =
    Some false /\
  JS.isTokenCredential builtin_read never_greater flipping_credential = None.
Proof. split; reflexivity. Qed.

Lemma token_credential_test_witness :
  JS.isTokenCredential builtin_read never_greater JS.js_undefined = Some false /\
  JS.isTokenCredential builtin_read never_greater token_credential = Some true /\
  JS.isTokenCredential builtin_read never_greater revoked_proxy = None.
Proof.
  split; [|split].
  - apply (proj1 (token_credential_test builtin_read never_greater
                    JS.js_undefined)).
    reflexivity.
  - apply (proj2 (proj1 (proj2 (token_credential_test builtin_read
                                  never_greater token_credential)))).
    split; [reflexivity |].
    exists (JS.plain true [("length", JS.js_number 2)]), JS.js_undefined.
    repeat split. by left.
  - apply (proj2 (proj2 (proj2 (token_credential_test builtin_read
                                  never_greater revoked_proxy)))).
    split; [reflexivity |]. by left.
Defined.

Lemma streamed_status_check_witness :
  JS.getStreamedCompletion (js_stream_answering js_stream_not_found)
    NDJSON.brace_decode [] JS.no_options =
  JS.Rejected (JS.Error "Request failed with status code 404").
Proof.
  apply (proj2 (streamed_status_check
                  (js_stream_answering js_stream_not_found)
                  NDJSON.brace_decode [] JS.no_options) js_stream_not_found);
    reflexivity.
Defined.

Lemma constructor_dispatch_witness :
  JS.new_AIChatProtocolClient builtin_read never_greater no_key_credential
    client_of_arguments "https://chat.example/api" client_options
    (JS.js_boolean true) =
    Some ("https://chat.example/api", client_options, JS.js_undefined) /\
  JS.new_AIChatProtocolClient builtin_read never_greater no_key_credential
    client_of_arguments "https://chat.example/api" token_credential
    client_options =
    Some ("https://chat.example/api", token_credential, client_options) /\
  JS.new_AIChatProtocolClient builtin_read never_greater no_key_credential
    client_of_arguments "https://chat.example/api" revoked_proxy
    client_options = None.
Proof.
  split; [|split].
  - apply (proj1 (constructor_dispatch builtin_read never_greater
                    no_key_credential client_of_arguments
                    "https://chat.example/api" client_options
                    (JS.js_boolean true)));
      [right; exists JS.js_undefined; repeat split; discriminate
      | reflexivity].
  - apply (proj1 (proj2 (constructor_dispatch builtin_read never_greater
                           no_key_credential client_of_arguments
                           "https://chat.example/api" token_credential
                           client_options))
             (JS.plain true [("length", JS.js_number 2)])); reflexivity.
  - apply (proj2 (proj2 (constructor_dispatch builtin_read never_greater
                           no_key_credential client_of_arguments
                           "https://chat.example/api" revoked_proxy
                           client_options))); reflexivity.
Defined.

Lemma request_headers_frame_witness :
  DotNet.Headers (DotNet.build_request serialize secret_client question)
    !! "Authorization" = Some "Bearer secret".
Proof.
  exact (eq_trans
           (proj2 (proj2 (proj2 (request_headers_frame serialize
                                   secret_client question)))
              "Authorization" ltac:(discriminate) ltac:(discriminate)
              ltac:(discriminate))
           eq_refl).
Defined.

Lemma null_options_throw_witness :
  DotNet.GetChatCompletionAsync serialize parse to_completion
    (client_answering json_answer) 1 None no_objects =
    (no_objects, DotNet.Throw DotNet.NullReferenceException) /\
  DotNet.GetChatCompletionStreamingAsync serialize parse to_delta
    (client_answering json_answer) 1 None no_objects =
    (no_objects, DotNet.Throw DotNet.NullReferenceException).
Proof.
  apply (null_options_throw (ChatCompletionDelta := list byte)
           serialize parse to_completion to_delta
           (client_answering json_answer) 1%positive None no_objects).
  reflexivity.
Defined.

Lemma transport_failure_propagates_witness :
  exists w',
    DotNet.GetChatCompletionStreamingAsync serialize parse to_delta
      client_failing 1 None one_caller =
      (w', DotNet.Throw (DotNet.PipelineException "connection refused")) /\
    DotNet.objects w' =
      <[1%positive := DotNet.with_Stream true question]>
        (DotNet.objects one_caller) /\
    DotNet.parsed (DotNet.trace w') = DotNet.parsed (DotNet.trace one_caller).
Proof.
  apply (proj2 (transport_failure_propagates (ChatCompletionDelta := list byte)
                  serialize parse to_completion to_delta
                  client_failing 1%positive None one_caller question
                  (DotNet.PipelineException "connection refused") eq_refl)).
  reflexivity.
Defined.

Lemma body_parsed_only_after_checks_witness :
  DotNet.parsed (DotNet.trace
    (DotNet.GetChatCompletionAsync serialize parse to_completion
       (client_answering json_answer) 1 None one_caller).1) = [bytes_of "{}"] /\
  DotNet.parsed (DotNet.trace
    (DotNet.GetChatCompletionAsync serialize parse to_completion
       (client_answering html_page) 1 None one_caller).1) = [].
Proof.
  split.
  - apply (body_parsed_only_after_checks serialize parse to_completion
             (client_answering json_answer) 1%positive None one_caller _
             question
             (DotNet.GetChatCompletionAsync serialize parse to_completion
                (client_answering json_answer) 1 None one_caller).2);
      reflexivity.
  - apply (body_parsed_only_after_checks serialize parse to_completion
             (client_answering html_page) 1%positive None one_caller _
             question
             (DotNet.GetChatCompletionAsync serialize parse to_completion
                (client_answering html_page) 1 None one_caller).2);
      reflexivity.
Defined.

Lemma completion_read_from_body_witness :
  exists w',
    DotNet.GetChatCompletionAsync serialize parse to_completion
      (client_answering json_answer) 1 None one_caller =
      (w', DotNet.Ok
             {| DotNet.Value :=
                  DotNet.new_ChatCompletion
                    {| DotNet.Role := "assistant"; DotNet.Content := "{}" |}
                    "" None None;
                DotNet.RawResponse := json_answer |}) /\
    DotNet.objects w' = DotNet.objects one_caller.
Proof.
  apply (completion_read_from_body serialize parse to_completion
           (client_answering json_answer) 1%positive None one_caller question
           json_answer (bytes_of "{}")); reflexivity.
Defined.

Lemma content_type_test_is_substring_witness :
  (DotNet.GetChatCompletionAsync serialize parse to_completion
     (client_answering html_page) 1 None one_caller).2 =
    DotNet.Throw (DotNet.ClientResultException
                    (Some "Content-Type does not contain application/json.")
                    html_page) <->
  ~ exists pre post, "text/html" = pre +:+ "application/json" +:+ post.
Proof.
  apply (content_type_test_is_substring serialize parse to_completion
           (client_answering html_page) 1%positive None one_caller question
           html_page "text/html"); reflexivity.
Defined.

Lemma streaming_skips_content_type_witness :
  exists w',
    DotNet.GetChatCompletionStreamingAsync serialize parse to_delta
      (client_answering html_page) 1 None one_caller =
      (w', DotNet.Ok
             {| DotNet.StreamingRawResponse := html_page;
                DotNet.Enumeration := NDJSON.Run [] NDJSON.Completed |}) /\
    DotNet.parsed (DotNet.trace w') = DotNet.parsed (DotNet.trace one_caller).
Proof.
  apply (streaming_skips_content_type serialize parse to_delta
           (client_answering html_page) 1%positive None one_caller question
           html_page); reflexivity.
Defined.

Lemma streaming_error_throws_witness :
  exists w',
    DotNet.GetChatCompletionStreamingAsync serialize parse to_delta
      (client_answering not_found) 1 None one_caller =
      (w', DotNet.Throw (DotNet.ClientResultException None not_found)) /\
    DotNet.objects w' !! 1%positive = Some (DotNet.with_Stream true question) /\
    DotNet.parsed (DotNet.trace w') = DotNet.parsed (DotNet.trace one_caller).
Proof.
  apply (streaming_error_throws serialize parse to_delta
           (client_answering not_found) 1%positive None one_caller question
           not_found); reflexivity.
Defined.

Lemma no_logger_no_logs_witness :
  DotNet.logged (DotNet.trace
    (DotNet.GetChatCompletionAsync serialize parse to_completion
       (client_answering json_answer) 1 None one_caller).1) = [] /\
  DotNet.logged (DotNet.trace
    (DotNet.GetChatCompletionStreamingAsync serialize parse to_delta
       (client_answering json_answer) 1 None one_caller).1) = [].
Proof.
  apply (no_logger_no_logs (ChatCompletionDelta := list byte)
           serialize parse to_completion to_delta
           (client_answering json_answer) 1%positive None one_caller).
  reflexivity.
Defined.

Lemma plain_call_logs_witness :
  DotNet.logged (DotNet.trace
    (DotNet.GetChatCompletionAsync serialize parse to_completion
       (quiet_logging_client json_answer) 1 None one_caller).1) =
  [DotNet.LogHttpRequest
     (DotNet.build_request serialize (quiet_logging_client json_answer) question)
     "stream:false";
   DotNet.LogHttpResponseBody (bytes_of "{}")].
Proof.
  apply (proj2 (plain_call_logs serialize parse to_completion
                  (quiet_logging_client json_answer) 1%positive None one_caller
                  _ question
                  (DotNet.GetChatCompletionAsync serialize parse to_completion
                     (quiet_logging_client json_answer) 1 None one_caller).2
                  {| DotNet.IsEnabled_Information := false |}
                  eq_refl eq_refl eq_refl)).
Defined.

Lemma constructed_client_witness :
  DotNet.logged (DotNet.trace
    (DotNet.GetChatCompletionAsync serialize parse to_completion
       secret_client 1 None one_caller).1) = [] /\
  DotNet.logged (DotNet.trace
    (DotNet.GetChatCompletionStreamingAsync serialize parse to_delta
       secret_client 1 None one_caller).1) = [].
Proof.
  apply (proj2 (proj2 (proj2
           (constructed_client (ChatCompletionDelta := list byte)
              serialize parse to_completion to_delta
              sample_pipeline {| DotNet.LoggerFactory := None |}
              "https://chat.example/api" (Some "secret") None)))
           eq_refl 1%positive None one_caller).
Defined.

Lemma rendering_shows_every_header_witness :
  DotNet.Contains (DotNet.HttpResponseToString html_page)
    (DotNet.header_line ("Content-Type", "text/html")) = true.
Proof.
  apply (proj2 (rendering_shows_every_header html_page)). reflexivity.
Defined.

End CodeProps.
